(** * Twins-study dashboard: the load / filter / select pipeline

    Shallow embedding of [app.py] and [main.py].  Both scripts load two
    CSV tables, keep the rows whose [Timepoint] does not exceed the
    slider value, narrow to one gene / one marker and hand the result to
    the charting call.

    The tables are pandas [DataFrame]s.  Only the pandas operations the
    scripts use are modelled: ['c' in df.columns], [df['c']],
    [series <= n], [series == v], [df[mask]] and [series.unique()]. *)

From Stdlib Require Import QArith.
From stdpp Require Import base option list strings gmap.

Local Open Scope string_scope.
Local Open Scope Z_scope.

(** ** Python values and exceptions *)

(** A cell of a table as [pd.read_csv] produces it: an integer, a finite
    float (kept as the rational it denotes), a piece of text or the
    missing-value marker [nan].  [VNone] is Python's [None]; it is what
    [st.selectbox] returns when it has no option to offer. *)
Inductive value : Type :=
  | VInt (z : Z)
  | VFloat (q : Q)
  | VStr (s : string)
  | VNaN
  | VNone.

Inductive exn : Type :=
  | TypeError
  | KeyError (key : string)
  | IndexingError
  | AssertionError (msg : string)
  | ParserError.

(** A computation that may raise. *)
Inductive result (A : Type) : Type :=
  | Ok (a : A)
  | Raise (e : exn).
Arguments Ok {A} a.
Arguments Raise {A} e.

#[global] Instance result_ret : MRet result := λ A a, Ok a.
#[global] Instance result_bind : MBind result := λ A B f m,
  match m with Ok a => f a | Raise e => Raise e end.
#[global] Instance result_fmap : FMap result := λ A B f m,
  match m with Ok a => Ok (f a) | Raise e => Raise e end.

(** [cell <= n] for an integer [n].  Numbers compare by value, a missing
    value compares false, text against a number is a [TypeError]. *)
Definition py_le (c : value) (n : Z) : result bool :=
  match c with
  | VInt z => Ok (z <=? n)
  | VFloat q => Ok (Qle_bool q (inject_Z n))
  | VStr _ => Raise TypeError
  | VNaN | VNone => Ok false
  end.

(** [cell == v], elementwise as pandas evaluates it: it never raises,
    values of different kinds are unequal, and a missing value is equal to
    nothing, itself included. *)
Definition py_eq (c v : value) : bool :=
  match c, v with
  | VInt a, VInt b => a =? b
  | VInt a, VFloat q | VFloat q, VInt a => Qeq_bool (inject_Z a) q
  | VFloat p, VFloat q => Qeq_bool p q
  | VStr s, VStr t => String.eqb s t
  | _, _ => false
  end.

(** ** Data frames *)

(** A row carries its index label and one cell per column. *)
Record Row : Type := mkRow { label : nat; cells : list value }.

Record DataFrame : Type := mkDF { columns : list string; rows : list Row }.

(** A column of a frame, in row order. *)
Abbreviation Series := (list value) (only parsing).

(** ['name' in df.columns] *)
Definition has_column (name : string) (df : DataFrame) : bool :=
  bool_decide (name ∈ columns df).

(** Position of the first column called [name]. *)
Fixpoint col_index (name : string) (cols : list string) : option nat :=
  match cols with
  | [] => None
  | c :: cols' =>
      if String.eqb c name then Some 0%nat else S <$> col_index name cols'
  end.

(** The cell of a row at a column position; [read_csv] pads short lines
    with [nan]. *)
Definition cell_at (i : nat) (r : Row) : value := default VNaN (cells r !! i).

(** [df['name']]: a [KeyError] when there is no such column.  [read_csv]
    renames repeated headers, so a name picks one column. *)
Definition getitem (df : DataFrame) (name : string) : result Series :=
  match col_index name (columns df) with
  | Some i => Ok (cell_at i <$> rows df)
  | None => Raise (KeyError name)
  end.

(** [series <= n] *)
Definition series_le (s : Series) (n : Z) : result (list bool) :=
  mapM (λ c, py_le c n) s.

(** [series == v] *)
Definition series_eq (s : Series) (v : value) : list bool :=
  (λ c, py_eq c v) <$> s.

(** Rows kept by a boolean mask, position by position. *)
Fixpoint mask_rows (rs : list Row) (mask : list bool) : list Row :=
  match rs, mask with
  | r :: rs', m :: mask' =>
      if m then r :: mask_rows rs' mask' else mask_rows rs' mask'
  | _, _ => []
  end.

(** [df[mask]]: the columns are kept, the rows are those the mask marks;
    a mask that does not line up with the rows is refused. *)
Definition getitem_mask (df : DataFrame) (mask : list bool) : result DataFrame :=
  if decide (length mask = length (rows df))
  then Ok (mkDF (columns df) (mask_rows (rows df) mask))
  else Raise IndexingError.

(** [series.unique()]: distinct values in order of first appearance; all
    missing values count as one. *)
Definition same_key (a b : value) : bool :=
  match a, b with
  | VNaN, VNaN | VNone, VNone => true
  | _, _ => py_eq a b
  end.

Fixpoint unique_acc (seen : list value) (s : Series) : list value :=
  match s with
  | [] => []
  | c :: s' =>
      if existsb (same_key c) seen then unique_acc seen s'
      else c :: unique_acc (c :: seen) s'
  end.

Definition unique (s : Series) : list value := unique_acc [] s.

(** ** Narrowing to a category value *)

(** [df[df[col] == v]], the expression both scripts use for
    [df_gene] / [df_g] (and for the marker). *)
Definition narrow (col : string) (v : value) (df : DataFrame) : result DataFrame :=
  s ← getitem df col;
  getitem_mask df (series_eq s v).

(** ** The page: what a run shows and how it ends *)

(** [px.line(df, x=.., y=.., color=.., title=f"{subject} .. over {days} days")] *)
Record Figure : Type := mkFigure {
  data : DataFrame;
  x : string;
  y : string;
  color : option string;
  subject : value;
  days : Z
}.

Inductive event : Type :=
  | SidebarWarning (msg : string)          (* st.sidebar.warning *)
  | Warning (msg : string)                 (* st.warning *)
  | Error (msg : string)                   (* st.error *)
  | Heading (prefix : string) (v : value)  (* st.subheader / st.header *)
  | PlotlyChart (fig : Figure)             (* st.plotly_chart *)
  | Footer.                                (* the closing rule and notes *)

(** A run ends early on [st.stop()] or on an uncaught exception. *)
Inductive halt : Type :=
  | Stopped
  | Raised (e : exn).

(** The widgets and the files a run reads. *)
Record Session : Type := mkSession {
  slider : Z;                                          (* st.sidebar.slider *)
  checkbox : bool;                                     (* st.sidebar.checkbox *)
  file_uploader : string → option (result DataFrame);  (* by widget label; the
                                                          upload as read_csv reads it *)
  files : gmap string (result DataFrame);              (* existing paths; the
                                                          file as read_csv reads it *)
  selectbox : string → list value → value              (* st.selectbox *)
}.

(** What [st.cache_data] keeps for one argument tuple: the returned value
    and the messages the call showed, which a hit shows again. *)
Abbreviation entry := (option DataFrame * list event)%type (only parsing).

Record outcome (A : Type) : Type := mkOutcome {
  store : gmap (string * string) entry;
  shown : list event;
  ret : halt + A
}.
Arguments mkOutcome {A} store shown ret.
Arguments store {A} o.
Arguments shown {A} o.
Arguments ret {A} o.

(** A piece of script: it starts from a cache and yields an outcome. *)
Definition script (A : Type) : Type := gmap (string * string) entry → outcome A.

#[global] Instance script_ret : MRet script := λ A a c, mkOutcome c [] (inr a).
#[global] Instance script_bind : MBind script := λ A B k m c,
  let o := m c in
  match ret o with
  | inr a =>
      let o' := k a (store o) in
      mkOutcome (store o') (shown o ++ shown o') (ret o')
  | inl h => mkOutcome (store o) (shown o) (inl h)
  end.

Definition emit (e : event) : script unit := λ c, mkOutcome c [e] (inr ()).
Definition st_stop {A} : script A := λ c, mkOutcome c [] (inl Stopped).
Definition raise {A} (e : exn) : script A := λ c, mkOutcome c [] (inl (Raised e)).
Definition lift {A} (r : result A) : script A :=
  match r with Ok a => mret a | Raise e => raise e end.

(** [assert cond, msg] *)
Definition assert (cond : bool) (msg : string) : script unit :=
  if cond then mret () else raise (AssertionError msg).

(** [@st.cache_data]: a call whose arguments are in the cache returns the
    cached value without running the body; otherwise the body runs and a
    returned value is cached under the arguments.  Nothing else enters the
    key. *)
Definition cache_data (body : string → string → script (option DataFrame))
    (path label : string) : script (option DataFrame) := λ c,
  match c !! (path, label) with
  | Some (v, msgs) => mkOutcome c msgs (inr v)
  | None =>
      let o := body path label c in
      match ret o with
      | inr v => mkOutcome (<[(path, label) := (v, shown o)]> (store o)) (shown o) (inr v)
      | inl h => o
      end
  end.

(** [set(required).issubset(df.columns)] *)
Definition issubset (required : list string) (df : DataFrame) : bool :=
  forallb (λ c, has_column c df) required.

(** ** [app.py] *)

Module App.

Definition gene_file : string := "data/gene_expression.csv".
Definition ox_file : string := "data/oxidative_stress.csv".

(** [load_data] as written, before the decorator is applied;
    [enable_upload] is the checkbox. *)
Definition load_data (s : Session) (path label : string) : script (option DataFrame) :=
  let enable_upload := checkbox s in
  if enable_upload then
    match file_uploader s ("Upload " ++ label ++ " CSV") with
    | Some uploaded => df ← lift uploaded; mret (Some df)
    | None => mret None
    end
  else
    match files s !! path with
    | Some content => df ← lift content; mret (Some df)
    | None =>
        emit (SidebarWarning ("File not found: " ++ path));;
        mret None
    end.

(** The name [load_data] after [@st.cache_data]. *)
Definition cached_load_data (s : Session) : string → string → script (option DataFrame) :=
  cache_data (load_data s).

(** [filter_by_days]; [days_in_space] is the slider value the function
    reads from the enclosing script. *)
Definition filter_by_days (days_in_space : Z) (df : DataFrame) : result DataFrame :=
  if negb (has_column "Timepoint" df) then Ok df
  else
    tp ← getitem df "Timepoint";
    mask ← series_le tp days_in_space;
    getitem_mask df mask.

(** The script from the pre-check on the two loaded tables to its end. *)
Definition body (s : Session) (gene_df ox_df : option DataFrame) : script unit :=
  let days_in_space := slider s in
  match gene_df, ox_df with
  | Some gene_df, Some ox_df =>
      gene_f ← lift (filter_by_days days_in_space gene_df);
      ox_f ← lift (filter_by_days days_in_space ox_df);
      assert (has_column "Gene" gene_df) "Column 'Gene' not found";;
      genes ← lift (getitem gene_df "Gene");
      let selected_gene := selectbox s "Select Gene" (unique genes) in
      assert (has_column "Marker" ox_df) "Column 'Marker' not found";;
      markers ← lift (getitem ox_df "Marker");
      let selected_marker := selectbox s "Select Oxidative Marker" (unique markers) in
      (* col1 *)
      emit (Heading "Gene Expression: " selected_gene);;
      df_gene ← lift (narrow "Gene" selected_gene gene_f);
      (if issubset ["Timepoint"; "Twin"; "Expression"] df_gene
       then emit (PlotlyChart (mkFigure df_gene "Timepoint" "Expression" (Some "Twin")
                                        selected_gene days_in_space))
       else emit (Error "Required columns ['Timepoint','Twin','Expression'] missing in gene_expression.csv"));;
      (* col2 *)
      emit (Heading "Oxidative Stress: " selected_marker);;
      df_ox ← lift (narrow "Marker" selected_marker ox_f);
      (if issubset ["Timepoint"; "Value"] df_ox
       then emit (PlotlyChart (mkFigure df_ox "Timepoint" "Value" None
                                        selected_marker days_in_space))
       else emit (Error "Required columns ['Timepoint','Marker','Value'] missing in oxidative_stress.csv"));;
      emit Footer
  | _, _ =>
      emit (Warning "Please provide both 'gene_expression.csv' and 'oxidative_stress.csv' in 'data/' or via uploader.");;
      st_stop
  end.

(** One run of the script. *)
Definition run (s : Session) : script unit :=
  gene_df ← cached_load_data s gene_file "Gene Expression";
  ox_df ← cached_load_data s ox_file "Oxidative Stress";
  body s gene_df ox_df.

End App.

(** ** [main.py] *)

Module Main.

Definition GENE_FILE : string := "data/gene_expression.csv".
Definition OX_FILE : string := "data/oxidative_stress.csv".

(** [load_csv] as written, before the decorator is applied;
    [use_uploader] is the checkbox. *)
Definition load_csv (s : Session) (path label : string) : script (option DataFrame) :=
  let use_uploader := checkbox s in
  if use_uploader then
    match file_uploader s ("Upload " ++ label ++ " CSV") with
    | Some uploaded => df ← lift uploaded; mret (Some df)
    | None => mret None
    end
  else
    match files s !! path with
    | Some content => df ← lift content; mret (Some df)
    | None =>
        emit (SidebarWarning ("File not found: " ++ path));;
        mret None
    end.

(** The name [load_csv] after [@st.cache_data]. *)
Definition cached_load_csv (s : Session) : string → string → script (option DataFrame) :=
  cache_data (load_csv s).

(** [filter_days]; the argument may be [None]. *)
Definition filter_days (days_in_space : Z) (df : option DataFrame)
  : result (option DataFrame) :=
  match df with
  | None => Ok None
  | Some d =>
      if negb (has_column "Timepoint" d) then Ok None
      else
        tp ← getitem d "Timepoint";
        mask ← series_le tp days_in_space;
        Some <$> getitem_mask d mask
  end.

(** [f[f[col] == v]] where [f] is what [filter_days] returned:
    subscripting [None] is a [TypeError]. *)
Definition narrow_filtered (col : string) (v : value) (f : option DataFrame)
  : result DataFrame :=
  match f with
  | Some d => narrow col v d
  | None => Raise TypeError
  end.

(** The script from the pre-check on the two loaded tables to its end. *)
Definition body (s : Session) (gene_df ox_df : option DataFrame) : script unit :=
  let days_in_space := slider s in
  match gene_df, ox_df with
  | Some gene_df, Some ox_df =>
      selected_gene ←
        (if has_column "Gene" gene_df then
           gene_list ← lift (unique <$> getitem gene_df "Gene");
           mret (selectbox s "Select Gene" gene_list)
         else
           emit (Error "'Gene' column missing in gene_expression.csv");;
           st_stop);
      selected_marker ←
        (if has_column "Marker" ox_df then
           marker_list ← lift (unique <$> getitem ox_df "Marker");
           mret (selectbox s "Select Oxidative Marker" marker_list)
         else
           emit (Error "'Marker' column missing in oxidative_stress.csv");;
           st_stop);
      gene_f ← lift (filter_days days_in_space (Some gene_df));
      go_f ← lift (filter_days days_in_space (Some ox_df));
      (* col1 *)
      emit (Heading "Gene Expression: " selected_gene);;
      df_g ← lift (narrow_filtered "Gene" selected_gene gene_f);
      (if issubset ["Timepoint"; "Twin"; "Expression"] df_g
       then emit (PlotlyChart (mkFigure df_g "Timepoint" "Expression" (Some "Twin")
                                        selected_gene days_in_space))
       else emit (Error "Required columns ['Timepoint','Twin','Expression'] missing in gene_expression.csv"));;
      (* col2 *)
      emit (Heading "Oxidative Stress: " selected_marker);;
      df_o ← lift (narrow_filtered "Marker" selected_marker go_f);
      (if issubset ["Timepoint"; "Value"] df_o
       then emit (PlotlyChart (mkFigure df_o "Timepoint" "Value" None
                                        selected_marker days_in_space))
       else emit (Error "Required columns ['Timepoint','Value'] missing in oxidative_stress.csv"));;
      emit Footer
  | _, _ =>
      emit (Warning "Please upload or place both 'gene_expression.csv' and 'oxidative_stress.csv' in data/.");;
      st_stop
  end.

(** One run of the script. *)
Definition run (s : Session) : script unit :=
  gene_df ← cached_load_csv s GENE_FILE "Gene Expression";
  ox_df ← cached_load_csv s OX_FILE "Oxidative Stress";
  body s gene_df ox_df.

End Main.

(** ** Vocabulary of the properties *)

(** The cell of row [r] under the column called [name], when the frame
    has such a column. *)
Definition cell (name : string) (df : DataFrame) (r : Row) : option value :=
  (λ i, cell_at i r) <$> col_index name (columns df).

(** A value that is a number no greater than [n]. *)
Definition within (n : Z) (v : value) : Prop :=
  match v with
  | VInt z => z ≤ n
  | VFloat q => (q <= inject_Z n)%Q
  | _ => False
  end.

(** The row's [Timepoint] is at most [n]. *)
Definition timepoint_le (df : DataFrame) (n : Z) (r : Row) : Prop :=
  match cell "Timepoint" df r with
  | Some v => within n v
  | None => False
  end.

(** A value that orders against an integer: anything but text. *)
Definition comparable (v : value) : Prop :=
  match v with
  | VStr _ => False
  | _ => True
  end.

(** The [Timepoint] column holds day counts (or gaps), not text: the
    column type of the data model. *)
Definition timepoint_numeric (df : DataFrame) : Prop :=
  Forall (λ r, ∀ v, cell "Timepoint" df r = Some v → comparable v) (rows df).

(** Two values are equal: two numbers that denote the same quantity, or
    two texts with the same characters.  A number is never equal to a
    text, and a missing value is equal to nothing, not even to a missing
    value. *)
Definition same_value (c v : value) : Prop :=
  match c, v with
  | VInt a, VInt b => a = b
  | VInt a, VFloat q => (inject_Z a == q)%Q
  | VFloat p, VInt b => (p == inject_Z b)%Q
  | VFloat p, VFloat q => (p == q)%Q
  | VStr s, VStr t => s = t
  | _, _ => False
  end.

(** The row's cell under [col] equals [v]. *)
Definition category_is (df : DataFrame) (col : string) (v : value) (r : Row) : Prop :=
  match cell col df r with
  | Some c => same_value c v
  | None => False
  end.

(** The frame with the same columns and the rows that satisfy [P]. *)
Definition select_rows (P : Row → Prop) `{∀ r, Decision (P r)} (df : DataFrame) : DataFrame :=
  mkDF (columns df) (filter P (rows df)).

#[global] Instance within_dec n v : Decision (within n v).
Proof.
  destruct v as [z|q| | |]; simpl; try apply _.
  destruct (Qlt_le_dec (inject_Z n) q) as [Hlt|Hle].
  - right. intros Hle. exact (Qlt_not_le _ _ Hlt Hle).
  - left. exact Hle.
Defined.

#[global] Instance timepoint_le_dec df n r : Decision (timepoint_le df n r).
Proof. unfold timepoint_le. destruct (cell "Timepoint" df r); apply _. Defined.

#[global] Instance same_value_dec c v : Decision (same_value c v).
Proof.
  destruct c as [a|p|s| |], v as [b|q|t| |]; simpl;
    try apply _; apply Qeq_dec.
Defined.

#[global] Instance category_is_dec df col v r : Decision (category_is df col v r).
Proof. unfold category_is. destruct (cell col df r); apply _. Defined.

(** The values under a column, or nothing when there is no such column. *)
Definition column_values (name : string) (df : DataFrame) : Series :=
  match getitem df name with
  | Ok s => s
  | Raise _ => []
  end.

(** What a panel plots: the rows within the bound that carry the chosen
    category value. *)
Definition kept (df : DataFrame) (bound : Z) (col : string) (v : value) : DataFrame :=
  select_rows (λ r, timepoint_le df bound r ∧ category_is df col v r) df.

(** The page of a run that reaches both panels: under each heading the
    chart when the table has the columns the chart needs, the panel's
    error otherwise.  [ox_error] is the second panel's message, which the
    two scripts word differently. *)
Definition page (s : Session) (gene ox : DataFrame) (ox_error : string) : list event :=
  let g := selectbox s "Select Gene" (unique (column_values "Gene" gene)) in
  let m := selectbox s "Select Oxidative Marker" (unique (column_values "Marker" ox)) in
  [ Heading "Gene Expression: " g;
    if issubset ["Timepoint"; "Twin"; "Expression"] gene
    then PlotlyChart (mkFigure (kept gene (slider s) "Gene" g)
                               "Timepoint" "Expression" (Some "Twin") g (slider s))
    else Error "Required columns ['Timepoint','Twin','Expression'] missing in gene_expression.csv";
    Heading "Oxidative Stress: " m;
    if issubset ["Timepoint"; "Value"] ox
    then PlotlyChart (mkFigure (kept ox (slider s) "Marker" m)
                               "Timepoint" "Value" None m (slider s))
    else Error ox_error;
    Footer ].

(** A run that showed no chart. *)
Definition no_chart {A} (o : outcome A) : Prop :=
  ∀ fig, PlotlyChart fig ∉ shown o.

(** ** Sample tables *)

Definition gene_sample : DataFrame :=
  mkDF ["Timepoint"; "Twin"; "Gene"; "Expression"]
       [ mkRow 0 [VInt 0; VStr "A"; VStr "X"; VFloat 1];
         mkRow 1 [VInt 400; VStr "A"; VStr "X"; VFloat 9];
         mkRow 2 [VInt 30; VStr "B"; VStr "Y"; VFloat (5 # 2)] ].

Definition ox_sample : DataFrame :=
  mkDF ["Timepoint"; "Marker"; "Value"]
       [ mkRow 0 [VInt 0; VStr "MDA"; VFloat 2];
         mkRow 1 [VInt 120; VStr "MDA"; VFloat 3] ].

(** [oxidative_stress.csv] without its [Marker] column. *)
Definition ox_no_marker : DataFrame :=
  mkDF ["Timepoint"; "Value"]
       [ mkRow 0 [VInt 0; VFloat 2]; mkRow 1 [VInt 120; VFloat 3] ].

(** [oxidative_stress.csv] without its [Value] column. *)
Definition ox_no_value : DataFrame :=
  mkDF ["Timepoint"; "Marker"]
       [ mkRow 0 [VInt 0; VStr "MDA"]; mkRow 1 [VInt 120; VStr "MDA"] ].

(** A table without a [Timepoint] column. *)
Definition no_timepoint : DataFrame :=
  mkDF ["Twin"; "Gene"] [ mkRow 0 [VStr "A"; VStr "X"] ].

(** A table whose [Timepoint] column holds text. *)
Definition text_timepoint : DataFrame :=
  mkDF ["Timepoint"; "Gene"] [ mkRow 0 [VStr "launch"; VStr "X"] ].

(** The first option, as an untouched [st.selectbox] returns it. *)
Definition first_option (_ : string) (options : list value) : value :=
  default VNone (head options).

(** Both files in place, uploader off, slider at its default. *)
Definition both_files (gene ox : DataFrame) : Session :=
  mkSession 340 false (λ _, None)
            (<[App.gene_file := Ok gene]> (<[App.ox_file := Ok ox]> ∅))
            first_option.

(** No file in place, uploader off. *)
Definition no_files : Session :=
  mkSession 340 false (λ _, None) ∅ first_option.

(** No file in place, uploader on, both tables uploaded. *)
Definition uploads (gene ox : DataFrame) : Session :=
  mkSession 340 true
            (λ lbl, if String.eqb lbl "Upload Gene Expression CSV" then Some (Ok gene)
                    else if String.eqb lbl "Upload Oxidative Stress CSV" then Some (Ok ox)
                    else None)
            ∅ first_option.

(** The cache a first run leaves behind when neither file is in place
    and the uploader is off. *)
Definition app_cache_after_no_files : gmap (string * string) entry :=
  store (App.run no_files ∅).

Definition main_cache_after_no_files : gmap (string * string) entry :=
  store (Main.run no_files ∅).

(** The cache a first run leaves behind when both files are in place and
    the uploader is off. *)
Definition app_cache_after_both_files : gmap (string * string) entry :=
  store (App.run (both_files gene_sample ox_sample) ∅).

Definition main_cache_after_both_files : gmap (string * string) entry :=
  store (Main.run (both_files gene_sample ox_sample) ∅).

#[global] Instance comparable_dec v : Decision (comparable v).
Proof. destruct v; simpl; apply _. Defined.

(** A piece of script that neither reads nor writes the cache. *)
Definition oblivious {A} (m : script A) : Prop :=
  ∀ c, m c = mkOutcome c (shown (m ∅)) (ret (m ∅)).

(** The sidebar message of a load from a path: the file-not-found
    warning when nothing was loaded, nothing otherwise. *)
Definition missing_warning (loaded : option DataFrame) (path : string) : list event :=
  match loaded with
  | None => [SidebarWarning ("File not found: " ++ path)]
  | Some _ => []
  end.

(** * Properties *)

(** ** Columns, masks and comparisons *)

Section frame_facts.

Lemma col_index_elem name cols :
  name ∈ cols ↔ is_Some (col_index name cols).
Proof.
  induction cols as [|c cols IH]; simpl.
  - split; [by intros ?%elem_of_nil | by intros [? ?]].
  - destruct (String.eqb_spec c name) as [->|Hne].
    + split; [eauto | intros _; left].
    + rewrite elem_of_cons, IH, fmap_is_Some.
      split; [by intros [->|?] | by right].
Qed.

Lemma has_column_index name df :
  has_column name df = true → ∃ i, col_index name (columns df) = Some i.
Proof.
  unfold has_column. intros H%bool_decide_eq_true.
  by apply col_index_elem in H as [i Hi]; exists i.
Qed.

Lemma has_column_false_index name df :
  has_column name df = false → col_index name (columns df) = None.
Proof.
  unfold has_column. intros H%bool_decide_eq_false.
  rewrite col_index_elem in H. by apply eq_None_not_Some.
Qed.

Lemma mask_rows_fmap (f : Row → bool) rs :
  mask_rows rs (f <$> rs) = filter (λ r, f r) rs.
Proof.
  induction rs as [|r rs IH]; [done|].
  rewrite fmap_cons, filter_cons. cbn [mask_rows]. rewrite IH.
  destruct (f r); by case_decide.
Qed.

Lemma getitem_mask_fmap df (f : Row → bool) :
  getitem_mask df (f <$> rows df) = Ok (mkDF (columns df) (filter (λ r, f r) (rows df))).
Proof.
  unfold getitem_mask. rewrite length_fmap, decide_True by done.
  by rewrite mask_rows_fmap.
Qed.

Lemma py_le_comparable c n :
  comparable c → py_le c n = Ok (bool_decide (within n c)).
Proof.
  destruct c as [z|q|s| |]; simpl; try done; intros _; f_equal.
  - destruct (Z.leb_spec z n); [by rewrite bool_decide_eq_true_2|].
    rewrite bool_decide_eq_false_2; [done | lia].
  - destruct (Qle_bool q (inject_Z n)) eqn:E.
    + by rewrite bool_decide_eq_true_2; [|apply Qle_bool_iff].
    + rewrite bool_decide_eq_false_2; [done|].
      intros H%Qle_bool_iff. congruence.
Qed.

Lemma py_le_raises c n : ¬ comparable c → py_le c n = Raise TypeError.
Proof. destruct c; simpl; tauto. Qed.

Lemma series_le_comparable (s : Series) n :
  Forall comparable s →
  series_le s n = Ok ((λ c, bool_decide (within n c)) <$> s).
Proof.
  unfold series_le. induction 1 as [|c s Hc _ IH]; [done|].
  simpl. rewrite (py_le_comparable _ _ Hc). simpl. by rewrite IH.
Qed.

Lemma within_mono n m v : n ≤ m → within n v → within m v.
Proof.
  destruct v as [z|q| | |]; simpl; try tauto; [lia|].
  intros Hnm Hq. eapply Qle_trans; [exact Hq|]. by rewrite <- Zle_Qle.
Qed.

Lemma py_eq_text s t : py_eq (VStr s) (VStr t) = true ↔ s = t.
Proof. simpl. apply String.eqb_eq. Qed.

Lemma py_eq_missing c : py_eq c VNaN = false ∧ py_eq c VNone = false.
Proof. by destruct c. Qed.

(** The comparison the narrowing makes decides equality of values. *)
Lemma py_eq_same_value c v : py_eq c v = true ↔ same_value c v.
Proof.
  destruct c as [a|p|s| |], v as [b|q|t| |]; simpl; try done.
  - apply Z.eqb_eq.
  - apply Qeq_bool_iff.
  - rewrite Qeq_bool_iff. split; intros H; by symmetry.
  - apply Qeq_bool_iff.
  - apply String.eqb_eq.
Qed.

End frame_facts.

(** ** The filter and the narrowing as row selections *)

Section selections.

Implicit Types (df : DataFrame) (n : Z) (v : value) (col : string).

Lemma cell_index name df r i :
  col_index name (columns df) = Some i → cell name df r = Some (cell_at i r).
Proof. unfold cell. by intros ->. Qed.

Lemma timepoint_series df i :
  col_index "Timepoint" (columns df) = Some i →
  timepoint_numeric df →
  Forall comparable (cell_at i <$> rows df).
Proof.
  intros Hi Hnum. apply Forall_fmap. eapply Forall_impl; [exact Hnum|].
  intros r Hr. apply Hr. by apply cell_index.
Qed.

(** [filter_by_days] on a table with a numeric [Timepoint] column. *)
Lemma filter_by_days_select df n :
  has_column "Timepoint" df = true →
  timepoint_numeric df →
  App.filter_by_days n df = Ok (select_rows (timepoint_le df n) df).
Proof.
  intros Hcol Hnum. unfold App.filter_by_days. rewrite Hcol. simpl.
  destruct (has_column_index _ _ Hcol) as [i Hi].
  unfold getitem. rewrite Hi. simpl.
  rewrite (series_le_comparable _ _ (timepoint_series _ _ Hi Hnum)). simpl.
  rewrite <- list_fmap_compose.
  rewrite (getitem_mask_fmap df ((λ c, bool_decide (within n c)) ∘ cell_at i)).
  unfold select_rows. do 2 f_equal. apply list_filter_iff. intros r.
  unfold timepoint_le. rewrite (cell_index _ _ _ _ Hi). simpl.
  apply bool_decide_spec.
Qed.

(** [filter_days] is [filter_by_days] wherever there is a [Timepoint]
    column. *)
Lemma filter_days_filter_by_days df n :
  has_column "Timepoint" df = true →
  Main.filter_days n (Some df) = Some <$> App.filter_by_days n df.
Proof.
  intros Hcol. unfold Main.filter_days, App.filter_by_days. rewrite Hcol. simpl.
  destruct (getitem df "Timepoint") as [tp|e]; [simpl|done].
  by destruct (series_le tp n).
Qed.

Lemma filter_days_select df n :
  has_column "Timepoint" df = true →
  timepoint_numeric df →
  Main.filter_days n (Some df) = Ok (Some (select_rows (timepoint_le df n) df)).
Proof.
  intros Hcol Hnum.
  by rewrite filter_days_filter_by_days, filter_by_days_select.
Qed.

(** The narrowing on a table that has the category column. *)
Lemma narrow_select col v df :
  has_column col df = true →
  narrow col v df = Ok (select_rows (category_is df col v) df).
Proof.
  intros Hcol. unfold narrow.
  destruct (has_column_index _ _ Hcol) as [i Hi].
  unfold getitem. rewrite Hi. simpl. unfold series_eq.
  rewrite <- list_fmap_compose.
  rewrite (getitem_mask_fmap df ((λ c, py_eq c v) ∘ cell_at i)).
  unfold select_rows. do 2 f_equal. apply list_filter_iff. intros r.
  unfold category_is. rewrite (cell_index _ _ _ _ Hi). simpl.
  rewrite Is_true_true. apply py_eq_same_value.
Qed.

Lemma select_rows_numeric (P : Row → Prop) `{∀ r, Decision (P r)} df :
  timepoint_numeric df → timepoint_numeric (select_rows P df).
Proof.
  unfold timepoint_numeric, select_rows, cell. simpl. intros Hnum.
  apply Forall_forall. intros r [_ Hr]%list_elem_of_filter.
  by apply (proj1 (Forall_forall _ _) Hnum).
Qed.

Lemma select_rows_has_column (P : Row → Prop) `{∀ r, Decision (P r)} name df :
  has_column name (select_rows P df) = has_column name df.
Proof. done. Qed.

End selections.

(** ** The filter contract *)

Lemma gene_sample_numeric : timepoint_numeric gene_sample.
Proof. repeat constructor; by intros v [= <-]. Qed.

(** C1.  On a table with a [Timepoint] column of day counts, both filters
    return the table whose rows are exactly the rows with [Timepoint] at
    most the bound, in their original order, and each of them is a row of
    the input. *)
Theorem filter_returns_rows_within_bound (df : DataFrame) (bound : Z) :
  has_column "Timepoint" df = true →
  timepoint_numeric df →
  ∃ out,
    App.filter_by_days bound df = Ok out
    ∧ Main.filter_days bound (Some df) = Ok (Some out)
    ∧ rows out = filter (timepoint_le df bound) (rows df)
    ∧ rows out `sublist_of` rows df
    ∧ ∀ r, r ∈ rows out ↔ r ∈ rows df ∧ timepoint_le df bound r.
Proof.
  intros Hcol Hnum. exists (select_rows (timepoint_le df bound) df).
  split; [by apply filter_by_days_select|].
  split; [by apply filter_days_select|].
  split; [done|]. split; [apply sublist_filter|].
  intros r. simpl. rewrite list_elem_of_filter. tauto.
Qed.

Lemma filter_returns_rows_within_bound_witness :
  has_column "Timepoint" gene_sample = true
  ∧ timepoint_numeric gene_sample
  ∧ ∃ out,
      App.filter_by_days 340 gene_sample = Ok out
      ∧ Main.filter_days 340 (Some gene_sample) = Ok (Some out)
      ∧ rows out = filter (timepoint_le gene_sample 340) (rows gene_sample)
      ∧ rows out `sublist_of` rows gene_sample
      ∧ ∀ r, r ∈ rows out ↔ r ∈ rows gene_sample ∧ timepoint_le gene_sample 340 r.
Proof.
  split; [reflexivity|]. split; [repeat constructor; by intros v [= <-]|].
  apply (filter_returns_rows_within_bound gene_sample 340); [reflexivity|].
  repeat constructor; by intros v [= <-].
Defined.

(** The scenario of the specification: of the rows at day 0 and day 400,
    a bound of 340 keeps the first only. *)
Example filter_scenario_340 :
  App.filter_by_days 340
    (mkDF ["Timepoint"; "Twin"; "Gene"; "Expression"]
          [ mkRow 0 [VInt 0; VStr "A"; VStr "X"; VFloat 1];
            mkRow 1 [VInt 400; VStr "A"; VStr "X"; VFloat 9] ])
  = Ok (mkDF ["Timepoint"; "Twin"; "Gene"; "Expression"]
             [ mkRow 0 [VInt 0; VStr "A"; VStr "X"; VFloat 1] ]).
Proof. reflexivity. Qed.

(** Text under [Timepoint] cannot be ordered against the slider value. *)
Example filter_text_timepoint :
  App.filter_by_days 340 text_timepoint = Raise TypeError
  ∧ Main.filter_days 340 (Some text_timepoint) = Raise TypeError.
Proof. split; reflexivity. Qed.

(** C3.  Without a [Timepoint] column [filter_by_days] hands the table
    back and [filter_days] returns [None]; with one, the two filters give
    the same result. *)
Theorem filters_differ_only_without_timepoint (df : DataFrame) (bound : Z) :
  if has_column "Timepoint" df
  then Main.filter_days bound (Some df) = Some <$> App.filter_by_days bound df
  else App.filter_by_days bound df = Ok df
       ∧ Main.filter_days bound (Some df) = Ok None.
Proof.
  destruct (has_column "Timepoint" df) eqn:Hcol.
  - by apply filter_days_filter_by_days.
  - unfold App.filter_by_days, Main.filter_days. by rewrite Hcol.
Qed.

Example filters_without_timepoint :
  App.filter_by_days 340 no_timepoint = Ok no_timepoint
  ∧ Main.filter_days 340 (Some no_timepoint) = Ok None.
Proof. split; reflexivity. Qed.

(** C5.  A smaller bound keeps fewer rows: every row kept under [b'] is
    kept under any [b > b'], and in the same order. *)
Theorem filter_monotone_in_bound (df : DataFrame) (b' b : Z) :
  has_column "Timepoint" df = true →
  timepoint_numeric df →
  b' < b →
  ∃ small big,
    App.filter_by_days b' df = Ok small
    ∧ App.filter_by_days b df = Ok big
    ∧ Main.filter_days b' (Some df) = Ok (Some small)
    ∧ Main.filter_days b (Some df) = Ok (Some big)
    ∧ rows small ⊆ rows big
    ∧ rows small `sublist_of` rows big.
Proof.
  intros Hcol Hnum Hlt.
  exists (select_rows (timepoint_le df b') df), (select_rows (timepoint_le df b) df).
  rewrite !filter_by_days_select, !filter_days_select by done.
  repeat (split; [done|]).
  assert (Hsub : rows (select_rows (timepoint_le df b') df)
                 `sublist_of` rows (select_rows (timepoint_le df b) df)).
  { simpl.
    replace (filter (timepoint_le df b') (rows df))
      with (filter (timepoint_le df b') (filter (timepoint_le df b) (rows df)));
      [apply sublist_filter|].
    rewrite list_filter_filter. apply list_filter_iff. intros r.
    unfold timepoint_le. destruct (cell "Timepoint" df r) as [c|]; [|tauto].
    split; [tauto|]. intros Hc. split; [done|].
    eapply within_mono; [|exact Hc]. lia. }
  split; [by apply sublist_subseteq | done].
Qed.

Lemma filter_monotone_in_bound_witness :
  has_column "Timepoint" gene_sample = true
  ∧ timepoint_numeric gene_sample
  ∧ 10 < 340
  ∧ ∃ small big,
      App.filter_by_days 10 gene_sample = Ok small
      ∧ App.filter_by_days 340 gene_sample = Ok big
      ∧ Main.filter_days 10 (Some gene_sample) = Ok (Some small)
      ∧ Main.filter_days 340 (Some gene_sample) = Ok (Some big)
      ∧ rows small ⊆ rows big
      ∧ rows small `sublist_of` rows big.
Proof.
  split; [reflexivity|]. split; [repeat constructor; by intros v [= <-]|].
  split; [lia|].
  apply (filter_monotone_in_bound gene_sample 10 340); [reflexivity| |lia].
  repeat constructor; by intros v [= <-].
Defined.

(** C6.  Filtering what the filter returned, by the same bound, returns
    it again. *)
Theorem filter_idempotent (df : DataFrame) (bound : Z) :
  has_column "Timepoint" df = true →
  timepoint_numeric df →
  ∃ out,
    App.filter_by_days bound df = Ok out
    ∧ App.filter_by_days bound out = Ok out
    ∧ Main.filter_days bound (Some df) = Ok (Some out)
    ∧ Main.filter_days bound (Some out) = Ok (Some out).
Proof.
  intros Hcol Hnum. exists (select_rows (timepoint_le df bound) df).
  assert (Hagain : select_rows (timepoint_le (select_rows (timepoint_le df bound) df) bound)
                     (select_rows (timepoint_le df bound) df)
                   = select_rows (timepoint_le df bound) df).
  { unfold select_rows. simpl. f_equal. rewrite list_filter_filter.
    apply list_filter_iff. intros r. unfold timepoint_le, cell. simpl. tauto. }
  rewrite !filter_by_days_select, !filter_days_select, Hagain;
    auto using select_rows_numeric.
Qed.

Lemma filter_idempotent_witness :
  has_column "Timepoint" gene_sample = true
  ∧ timepoint_numeric gene_sample
  ∧ ∃ out,
      App.filter_by_days 340 gene_sample = Ok out
      ∧ App.filter_by_days 340 out = Ok out
      ∧ Main.filter_days 340 (Some gene_sample) = Ok (Some out)
      ∧ Main.filter_days 340 (Some out) = Ok (Some out).
Proof.
  split; [reflexivity|]. split; [repeat constructor; by intros v [= <-]|].
  apply (filter_idempotent gene_sample 340); [reflexivity|].
  repeat constructor; by intros v [= <-].
Defined.

(** C9.  The filtered table has the columns of the input, in the same
    order. *)
Theorem filter_preserves_columns (df : DataFrame) (bound : Z) :
  has_column "Timepoint" df = true →
  timepoint_numeric df →
  ∃ out,
    App.filter_by_days bound df = Ok out
    ∧ Main.filter_days bound (Some df) = Ok (Some out)
    ∧ columns out = columns df.
Proof.
  intros Hcol Hnum. exists (select_rows (timepoint_le df bound) df).
  by rewrite filter_by_days_select, filter_days_select.
Qed.

Lemma filter_preserves_columns_witness :
  has_column "Timepoint" ox_sample = true
  ∧ timepoint_numeric ox_sample
  ∧ ∃ out,
      App.filter_by_days 100 ox_sample = Ok out
      ∧ Main.filter_days 100 (Some ox_sample) = Ok (Some out)
      ∧ columns out = columns ox_sample.
Proof.
  split; [reflexivity|]. split; [repeat constructor; by intros v [= <-]|].
  apply (filter_preserves_columns ox_sample 100); [reflexivity|].
  repeat constructor; by intros v [= <-].
Defined.

(** ** The narrowing contract *)

(** C7.  On a table with the category column the narrowing raises nothing
    and returns exactly the rows whose category cell equals the chosen
    value, in order; when no row has that value the result has no row. *)
Theorem narrow_returns_rows_of_category (df : DataFrame) (col : string) (v : value) :
  has_column col df = true →
  ∃ out,
    narrow col v df = Ok out
    ∧ Main.narrow_filtered col v (Some df) = Ok out
    ∧ columns out = columns df
    ∧ rows out = filter (category_is df col v) (rows df)
    ∧ (∀ r, r ∈ rows out ↔ r ∈ rows df ∧ category_is df col v r)
    ∧ ((∀ r, r ∈ rows df → ¬ category_is df col v r) → rows out = []).
Proof.
  intros Hcol. exists (select_rows (category_is df col v) df).
  simpl. rewrite narrow_select by done.
  repeat (split; [done|]). split.
  - intros r. rewrite list_elem_of_filter. tauto.
  - intros Hnone. apply elem_of_nil_inv. intros r [? ?]%list_elem_of_filter.
    by eapply Hnone.
Qed.

Lemma narrow_returns_rows_of_category_witness :
  has_column "Gene" gene_sample = true
  ∧ ∃ out,
      narrow "Gene" (VStr "Z") gene_sample = Ok out
      ∧ Main.narrow_filtered "Gene" (VStr "Z") (Some gene_sample) = Ok out
      ∧ columns out = columns gene_sample
      ∧ rows out = filter (category_is gene_sample "Gene" (VStr "Z")) (rows gene_sample)
      ∧ (∀ r, r ∈ rows out ↔ r ∈ rows gene_sample ∧ category_is gene_sample "Gene" (VStr "Z") r)
      ∧ ((∀ r, r ∈ rows gene_sample → ¬ category_is gene_sample "Gene" (VStr "Z") r)
         → rows out = []).
Proof.
  split; [reflexivity|].
  apply (narrow_returns_rows_of_category gene_sample "Gene" (VStr "Z")). reflexivity.
Defined.

Example narrow_present_value :
  narrow "Gene" (VStr "Y") gene_sample
  = Ok (mkDF ["Timepoint"; "Twin"; "Gene"; "Expression"]
             [ mkRow 2 [VInt 30; VStr "B"; VStr "Y"; VFloat (5 # 2)] ]).
Proof. reflexivity. Qed.

Example narrow_absent_value :
  narrow "Gene" (VStr "Z") gene_sample
  = Ok (mkDF ["Timepoint"; "Twin"; "Gene"; "Expression"] []).
Proof. reflexivity. Qed.

(** C10.  On a table with a [Timepoint] column of day counts and the
    category column, narrowing the filtered table and filtering the
    narrowed table give the same table. *)
Theorem filter_narrow_commute (df : DataFrame) (bound : Z) (col : string) (v : value) :
  has_column "Timepoint" df = true →
  timepoint_numeric df →
  has_column col df = true →
  ∃ out,
    (App.filter_by_days bound df ≫= narrow col v) = Ok out
    ∧ (narrow col v df ≫= App.filter_by_days bound) = Ok out
    ∧ (Main.filter_days bound (Some df) ≫= Main.narrow_filtered col v) = Ok out
    ∧ (narrow col v df ≫= λ d, Main.filter_days bound (Some d)) = Ok (Some out).
Proof.
  intros Htp Hnum Hcol.
  exists (select_rows (λ r, timepoint_le df bound r ∧ category_is df col v r) df).
  set (filtered := select_rows (timepoint_le df bound) df).
  set (narrowed := select_rows (category_is df col v) df).
  assert (Hfn : select_rows (category_is filtered col v) filtered
                = select_rows (λ r, timepoint_le df bound r ∧ category_is df col v r) df).
  { unfold select_rows. simpl. f_equal. rewrite list_filter_filter.
    apply list_filter_iff. intros r. unfold category_is, cell. simpl. tauto. }
  assert (Hnf : select_rows (timepoint_le narrowed bound) narrowed
                = select_rows (λ r, timepoint_le df bound r ∧ category_is df col v r) df).
  { unfold select_rows. simpl. f_equal. rewrite list_filter_filter.
    apply list_filter_iff. intros r. unfold timepoint_le, cell. simpl. tauto. }
  rewrite filter_by_days_select, filter_days_select, narrow_select by done.
  fold filtered narrowed. cbn [mbind result_bind Main.narrow_filtered].
  rewrite narrow_select, filter_by_days_select, filter_days_select
    by (subst filtered narrowed; auto using select_rows_numeric).
  by rewrite Hfn, Hnf.
Qed.

Lemma filter_narrow_commute_witness :
  has_column "Timepoint" gene_sample = true
  ∧ timepoint_numeric gene_sample
  ∧ has_column "Gene" gene_sample = true
  ∧ ∃ out,
      (App.filter_by_days 340 gene_sample ≫= narrow "Gene" (VStr "X")) = Ok out
      ∧ (narrow "Gene" (VStr "X") gene_sample ≫= App.filter_by_days 340) = Ok out
      ∧ (Main.filter_days 340 (Some gene_sample) ≫= Main.narrow_filtered "Gene" (VStr "X")) = Ok out
      ∧ (narrow "Gene" (VStr "X") gene_sample ≫= λ d, Main.filter_days 340 (Some d))
        = Ok (Some out).
Proof.
  split; [reflexivity|]. split; [repeat constructor; by intros v [= <-]|].
  split; [reflexivity|].
  apply (filter_narrow_commute gene_sample 340 "Gene" (VStr "X")); [reflexivity| |reflexivity].
  repeat constructor; by intros v [= <-].
Defined.

(** Where [Timepoint] holds text the two orders part ways: the filter
    raises on the full table, and has nothing to compare once the
    narrowing has removed every row. *)
Example filter_narrow_text_timepoint :
  (App.filter_by_days 340 text_timepoint ≫= narrow "Gene" (VStr "Q")) = Raise TypeError
  ∧ (narrow "Gene" (VStr "Q") text_timepoint ≫= App.filter_by_days 340)
    = Ok (mkDF ["Timepoint"; "Gene"] []).
Proof. split; reflexivity. Qed.

(** ** The loader *)

Section loader.

Implicit Types (s : Session) (c : gmap (string * string) entry).

(** A call whose arguments are not in the cache runs the body. *)
Lemma cache_data_miss body path label c v :
  c !! (path, label) = None →
  ret (body path label c) = inr v →
  cache_data body path label c
  = mkOutcome (<[(path, label) := (v, shown (body path label c))]> (store (body path label c)))
              (shown (body path label c)) (inr v).
Proof. intros Hmiss Hret. unfold cache_data. by rewrite Hmiss, Hret. Qed.

(** A call whose arguments are in the cache does not run the body. *)
Lemma cache_data_hit body path label c v msgs :
  c !! (path, label) = Some (v, msgs) →
  cache_data body path label c = mkOutcome c msgs (inr v).
Proof. intros Hhit. unfold cache_data. by rewrite Hhit. Qed.

Lemma load_data_missing s path label c :
  checkbox s = false →
  files s !! path = None →
  App.load_data s path label c
  = mkOutcome c [SidebarWarning ("File not found: " ++ path)] (inr None).
Proof. intros Hoff Hnone. unfold App.load_data. by rewrite Hoff, Hnone. Qed.

Lemma load_csv_missing s path label c :
  checkbox s = false →
  files s !! path = None →
  Main.load_csv s path label c
  = mkOutcome c [SidebarWarning ("File not found: " ++ path)] (inr None).
Proof. intros Hoff Hnone. unfold Main.load_csv. by rewrite Hoff, Hnone. Qed.

End loader.

(** The loader as written, with the uploader off and no file at the
    path, returns [None] and shows the file-not-found warning; so does the
    decorated loader on a call whose arguments it has not cached. *)
Theorem loader_missing_file (s : Session) (path label : string)
    (c : gmap (string * string) entry) :
  checkbox s = false →
  files s !! path = None →
  let warning := SidebarWarning ("File not found: " ++ path) in
  App.load_data s path label c = mkOutcome c [warning] (inr None)
  ∧ Main.load_csv s path label c = mkOutcome c [warning] (inr None)
  ∧ (c !! (path, label) = None →
     App.cached_load_data s path label c
     = mkOutcome (<[(path, label) := (None, [warning])]> c) [warning] (inr None)
     ∧ Main.cached_load_csv s path label c
       = mkOutcome (<[(path, label) := (None, [warning])]> c) [warning] (inr None)).
Proof.
  intros Hoff Hnone warning.
  split; [by apply load_data_missing|]. split; [by apply load_csv_missing|].
  intros Hmiss. unfold App.cached_load_data, Main.cached_load_csv. split.
  - rewrite (cache_data_miss _ _ _ _ None Hmiss);
      by rewrite load_data_missing.
  - rewrite (cache_data_miss _ _ _ _ None Hmiss);
      by rewrite load_csv_missing.
Qed.

Lemma loader_missing_file_witness :
  checkbox no_files = false
  ∧ files no_files !! "data/gene_expression.csv" = None
  ∧ App.load_data no_files "data/gene_expression.csv" "Gene Expression" ∅
    = mkOutcome ∅ [SidebarWarning "File not found: data/gene_expression.csv"] (inr None)
  ∧ Main.load_csv no_files "data/gene_expression.csv" "Gene Expression" ∅
    = mkOutcome ∅ [SidebarWarning "File not found: data/gene_expression.csv"] (inr None)
  ∧ ret (App.cached_load_data no_files "data/gene_expression.csv" "Gene Expression" ∅)
    = inr None
  ∧ ret (Main.cached_load_csv no_files "data/gene_expression.csv" "Gene Expression" ∅)
    = inr None.
Proof.
  split; [reflexivity|]. split; [reflexivity|].
  destruct (loader_missing_file no_files "data/gene_expression.csv" "Gene Expression" ∅)
    as (Happ & Hmain & Hcached); [reflexivity|reflexivity|].
  destruct Hcached as [Hcapp Hcmain]; [reflexivity|].
  split; [exact Happ|]. split; [exact Hmain|].
  split; [by rewrite Hcapp | by rewrite Hcmain].
Defined.

(** C4.  After a run that loaded both files, the decorated loader, asked
    for the same path and label with the uploader off and the file no
    longer there, returns the cached table and shows no warning; the
    loader as written returns [None] and shows the warning. *)
Theorem cached_loader_misses_removed_file :
  checkbox no_files = false
  ∧ files no_files !! "data/gene_expression.csv" = None
  ∧ ret (App.cached_load_data no_files App.gene_file "Gene Expression"
           app_cache_after_both_files)
    = inr (Some gene_sample)
  ∧ shown (App.cached_load_data no_files App.gene_file "Gene Expression"
             app_cache_after_both_files)
    = []
  ∧ ret (App.load_data no_files App.gene_file "Gene Expression" app_cache_after_both_files)
    = inr None
  ∧ shown (App.load_data no_files App.gene_file "Gene Expression" app_cache_after_both_files)
    = [SidebarWarning "File not found: data/gene_expression.csv"]
  ∧ ret (Main.cached_load_csv no_files Main.GENE_FILE "Gene Expression"
           main_cache_after_both_files)
    = inr (Some gene_sample)
  ∧ shown (Main.cached_load_csv no_files Main.GENE_FILE "Gene Expression"
             main_cache_after_both_files)
    = []
  ∧ ret (Main.load_csv no_files Main.GENE_FILE "Gene Expression" main_cache_after_both_files)
    = inr None
  ∧ shown (Main.load_csv no_files Main.GENE_FILE "Gene Expression" main_cache_after_both_files)
    = [SidebarWarning "File not found: data/gene_expression.csv"].
Proof. vm_compute. repeat split. Qed.

(** The same run, end to end: with both files gone the page is drawn
    from the cached tables, and no warning is shown. *)
Example stale_cache_hides_removed_files :
  ret (App.run no_files app_cache_after_both_files) = inr ()
  ∧ (∀ msg, SidebarWarning msg ∉ shown (App.run no_files app_cache_after_both_files))
  ∧ ret (App.run no_files ∅) = inl Stopped.
Proof.
  split; [vm_compute; reflexivity|]. split; [|vm_compute; reflexivity].
  intros msg Hin.
  assert (Hshown : shown (App.run no_files app_cache_after_both_files)
                   = shown (App.run (both_files gene_sample ox_sample) ∅))
    by (vm_compute; reflexivity).
  rewrite Hshown in Hin. vm_compute in Hin.
  repeat (apply elem_of_cons in Hin as [Hin|Hin]; [discriminate Hin|]).
  by apply elem_of_nil in Hin.
Qed.

(** ** The memoization *)

(** C8.  After a run that found no file, the decorated loader keeps
    answering [None] for the same path and label, although the uploader
    has since been switched on and a table uploaded, or the file has since
    been put in place; the loader itself returns the table. *)
Theorem cached_loader_ignores_upload_toggle :
  let uploaded := uploads gene_sample ox_sample in
  let placed := both_files gene_sample ox_sample in
  ret (App.cached_load_data uploaded App.gene_file "Gene Expression" app_cache_after_no_files)
    = inr None
  ∧ ret (App.load_data uploaded App.gene_file "Gene Expression" app_cache_after_no_files)
    = inr (Some gene_sample)
  ∧ ret (App.cached_load_data placed App.gene_file "Gene Expression" app_cache_after_no_files)
    = inr None
  ∧ ret (App.load_data placed App.gene_file "Gene Expression" app_cache_after_no_files)
    = inr (Some gene_sample)
  ∧ ret (Main.cached_load_csv uploaded Main.GENE_FILE "Gene Expression" main_cache_after_no_files)
    = inr None
  ∧ ret (Main.load_csv uploaded Main.GENE_FILE "Gene Expression" main_cache_after_no_files)
    = inr (Some gene_sample)
  ∧ ret (Main.cached_load_csv placed Main.GENE_FILE "Gene Expression" main_cache_after_no_files)
    = inr None
  ∧ ret (Main.load_csv placed Main.GENE_FILE "Gene Expression" main_cache_after_no_files)
    = inr (Some gene_sample).
Proof. vm_compute. repeat split. Qed.

(** With an empty cache the decorated loader and the loader agree. *)
Lemma cache_data_cold body path label :
  ret (cache_data body path label ∅) = ret (body path label ∅).
Proof.
  unfold cache_data. rewrite lookup_empty.
  by destruct (ret (body path label ∅)) eqn:E; [rewrite E|].
Qed.

(** The files put in place after the first run are never read: the page
    still asks for them. *)
Example stale_cache_blocks_placed_files :
  ret (App.run (both_files gene_sample ox_sample) app_cache_after_no_files) = inl Stopped
  ∧ ret (Main.run (both_files gene_sample ox_sample) main_cache_after_no_files) = inl Stopped
  ∧ ret (App.run (both_files gene_sample ox_sample) ∅) = inr ()
  ∧ ret (Main.run (both_files gene_sample ox_sample) ∅) = inr ().
Proof. vm_compute. repeat split. Qed.

(** The same run, end to end: the uploads are never read and the page
    still asks for the files. *)
Example stale_cache_blocks_upload :
  ret (App.run (uploads gene_sample ox_sample) app_cache_after_no_files) = inl Stopped
  ∧ ret (App.run (uploads gene_sample ox_sample) ∅) = inr ().
Proof. vm_compute. done. Qed.

(** ** Running a script *)

Section script_facts.

Context {A B : Type}.
Implicit Types (c : gmap (string * string) entry) (k : A → script B).

Lemma bind_ret (a : A) k c : (mret a ≫= k) c = k a c.
Proof.
  unfold mbind, script_bind, mret, script_ret. simpl.
  by destruct (k a c).
Qed.

Lemma bind_lift_ok (a : A) k c : (lift (Ok a) ≫= k) c = k a c.
Proof. apply bind_ret. Qed.

Lemma bind_lift_raise (e : exn) k c :
  (lift (Raise e) ≫= k) c = mkOutcome c [] (inl (Raised e)).
Proof. done. Qed.

(** A command that shows nothing and leaves the cache alone. *)
Lemma bind_pure (m : script A) (a : A) k c :
  m c = mkOutcome c [] (inr a) → (m ≫= k) c = k a c.
Proof.
  intros Hm. unfold mbind, script_bind. rewrite Hm. simpl.
  by destruct (k a c).
Qed.

Lemma bind_emit (e : event) (k : () → script B) c c' evs r :
  k () c = mkOutcome c' evs r →
  (emit e ≫= k) c = mkOutcome c' (e :: evs) r.
Proof. unfold mbind, script_bind, emit. simpl. by intros ->. Qed.

End script_facts.

(** One step of a script whose next command has a known result. *)
Ltac script_step :=
  lazymatch goal with
  | |- context [mbind _ (lift (Ok ?a))] =>
      let T := type of a in rewrite (bind_lift_ok (A:=T))
  | |- context [mbind _ (mret ?a)] =>
      let T := type of a in rewrite (bind_ret (A:=T))
  end.

Section panels.

Implicit Types (s : Session) (gene ox df : DataFrame)
               (c : gmap (string * string) entry).

Lemma getitem_column_values name df :
  has_column name df = true → getitem df name = Ok (column_values name df).
Proof.
  intros [i Hi]%has_column_index. unfold column_values, getitem. by rewrite Hi.
Qed.

Lemma narrow_filtered_kept df bound col v :
  has_column col df = true →
  narrow col v (select_rows (timepoint_le df bound) df) = Ok (kept df bound col v).
Proof.
  intros Hcol. rewrite narrow_select by done. unfold kept, select_rows. simpl.
  do 2 f_equal. rewrite list_filter_filter. apply list_filter_iff. intros r.
  unfold category_is, cell. simpl. tauto.
Qed.

Lemma issubset_kept required df bound col v :
  issubset required (kept df bound col v) = issubset required df.
Proof. done. Qed.

(** [app.py] when both tables have their category column and a numeric
    [Timepoint]: each panel shows its chart or its own error. *)
Lemma app_body_panels s gene ox c :
  has_column "Timepoint" gene = true → timepoint_numeric gene →
  has_column "Gene" gene = true →
  has_column "Timepoint" ox = true → timepoint_numeric ox →
  has_column "Marker" ox = true →
  let g := selectbox s "Select Gene" (unique (column_values "Gene" gene)) in
  let m := selectbox s "Select Oxidative Marker" (unique (column_values "Marker" ox)) in
  App.body s (Some gene) (Some ox) c
  = mkOutcome c
      [ Heading "Gene Expression: " g;
        if issubset ["Timepoint"; "Twin"; "Expression"] gene
        then PlotlyChart (mkFigure (kept gene (slider s) "Gene" g)
                                   "Timepoint" "Expression" (Some "Twin") g (slider s))
        else Error "Required columns ['Timepoint','Twin','Expression'] missing in gene_expression.csv";
        Heading "Oxidative Stress: " m;
        if issubset ["Timepoint"; "Value"] ox
        then PlotlyChart (mkFigure (kept ox (slider s) "Marker" m)
                                   "Timepoint" "Value" None m (slider s))
        else Error "Required columns ['Timepoint','Marker','Value'] missing in oxidative_stress.csv";
        Footer ]
      (inr ()).
Proof.
  intros Htg Hng Hcg Hto Hno Hco g m. unfold App.body.
  rewrite !filter_by_days_select by done. do 2 script_step.
  rewrite Hcg, Hco. unfold assert. script_step.
  rewrite (getitem_column_values "Gene") by done. do 2 script_step.
  rewrite (getitem_column_values "Marker") by done. script_step.
  fold g m. apply bind_emit.
  rewrite (narrow_filtered_kept gene) by done. script_step. rewrite issubset_kept.
  destruct (issubset _ gene); do 2 apply bind_emit;
    rewrite (narrow_filtered_kept ox) by done; script_step; rewrite issubset_kept;
    destruct (issubset _ ox); by apply bind_emit.
Qed.

(** The same for [main.py]. *)
Lemma main_body_panels s gene ox c :
  has_column "Timepoint" gene = true → timepoint_numeric gene →
  has_column "Gene" gene = true →
  has_column "Timepoint" ox = true → timepoint_numeric ox →
  has_column "Marker" ox = true →
  let g := selectbox s "Select Gene" (unique (column_values "Gene" gene)) in
  let m := selectbox s "Select Oxidative Marker" (unique (column_values "Marker" ox)) in
  Main.body s (Some gene) (Some ox) c
  = mkOutcome c
      [ Heading "Gene Expression: " g;
        if issubset ["Timepoint"; "Twin"; "Expression"] gene
        then PlotlyChart (mkFigure (kept gene (slider s) "Gene" g)
                                   "Timepoint" "Expression" (Some "Twin") g (slider s))
        else Error "Required columns ['Timepoint','Twin','Expression'] missing in gene_expression.csv";
        Heading "Oxidative Stress: " m;
        if issubset ["Timepoint"; "Value"] ox
        then PlotlyChart (mkFigure (kept ox (slider s) "Marker" m)
                                   "Timepoint" "Value" None m (slider s))
        else Error "Required columns ['Timepoint','Value'] missing in oxidative_stress.csv";
        Footer ]
      (inr ()).
Proof.
  intros Htg Hng Hcg Hto Hno Hco g m. unfold Main.body.
  rewrite Hcg, Hco.
  rewrite (bind_pure _ g);
    [|by rewrite (getitem_column_values "Gene")].
  rewrite (bind_pure _ m);
    [|by rewrite (getitem_column_values "Marker")].
  rewrite !filter_days_select by done. do 2 script_step.
  apply bind_emit. cbn [Main.narrow_filtered].
  rewrite (narrow_filtered_kept gene) by done. script_step. rewrite issubset_kept.
  destruct (issubset _ gene); do 2 apply bind_emit;
    rewrite (narrow_filtered_kept ox) by done; script_step; rewrite issubset_kept;
    destruct (issubset _ ox); by apply bind_emit.
Qed.

(** [app.py] without a category column: nothing is shown, and the run
    ends in the filter's exception if a filter raised, in the failed
    assertion otherwise. *)
Lemma app_body_category_missing s gene ox c :
  has_column "Gene" gene = false ∨ has_column "Marker" ox = false →
  App.body s (Some gene) (Some ox) c
  = mkOutcome c []
      (inl (Raised
         match App.filter_by_days (slider s) gene,
               App.filter_by_days (slider s) ox with
         | Raise e, _ => e
         | Ok _, Raise e => e
         | Ok _, Ok _ =>
             AssertionError (if has_column "Gene" gene
                             then "Column 'Marker' not found"
                             else "Column 'Gene' not found")
         end)).
Proof.
  intros Hmiss. unfold App.body.
  destruct (App.filter_by_days (slider s) gene) as [gene_f|e]; [|done].
  script_step.
  destruct (App.filter_by_days (slider s) ox) as [ox_f|e]; [|done].
  script_step. unfold assert.
  destruct (has_column "Gene" gene) eqn:Hcg; [|done].
  script_step. rewrite (getitem_column_values "Gene") by done. script_step.
  destruct Hmiss as [?|Hco]; [done|]. by rewrite Hco.
Qed.

(** [main.py] without a category column: the error naming the column is
    shown, [Gene] before [Marker], and the script stops. *)
Lemma main_body_category_missing s gene ox c :
  has_column "Gene" gene = false ∨ has_column "Marker" ox = false →
  Main.body s (Some gene) (Some ox) c
  = mkOutcome c
      [Error (if has_column "Gene" gene
              then "'Marker' column missing in oxidative_stress.csv"
              else "'Gene' column missing in gene_expression.csv")]
      (inl Stopped).
Proof.
  intros Hmiss. unfold Main.body.
  destruct (has_column "Gene" gene) eqn:Hcg; [|done].
  rewrite (bind_pure _ (selectbox s "Select Gene" (unique (column_values "Gene" gene))));
    [|by rewrite (getitem_column_values "Gene")].
  destruct Hmiss as [?|Hco]; [done|]. by rewrite Hco.
Qed.

End panels.

(** ** Missing columns *)

(** C2, as the scripts behave.  A table without its category column
    ([Gene], [Marker]) ends the run before either panel, so no chart is
    shown, the other table's included.  [main.py] shows the error naming
    the column ([Gene] first) and stops.  [app.py] shows nothing and ends
    in an uncaught exception: its failed assertion on the column ([Gene]
    first), or the [TypeError] of the filter, which runs before the
    assertions, when a [Timepoint] column holds text.  When both tables
    have their category column and a numeric [Timepoint], a table that
    lacks another column its chart needs gets an error in its own panel,
    and the other panel is drawn or not by its own table alone. *)
Theorem missing_column_outcomes (s : Session) (gene ox : DataFrame)
    (c : gmap (string * string) entry) :
  (has_column "Gene" gene = false ∨ has_column "Marker" ox = false →
   App.body s (Some gene) (Some ox) c
   = mkOutcome c []
       (inl (Raised
          match App.filter_by_days (slider s) gene,
                App.filter_by_days (slider s) ox with
          | Raise e, _ => e
          | Ok _, Raise e => e
          | Ok _, Ok _ =>
              AssertionError (if has_column "Gene" gene
                              then "Column 'Marker' not found"
                              else "Column 'Gene' not found")
          end))
   ∧ Main.body s (Some gene) (Some ox) c
     = mkOutcome c
         [Error (if has_column "Gene" gene
                 then "'Marker' column missing in oxidative_stress.csv"
                 else "'Gene' column missing in gene_expression.csv")]
         (inl Stopped))
  ∧ (has_column "Timepoint" gene = true → timepoint_numeric gene →
     has_column "Gene" gene = true →
     has_column "Timepoint" ox = true → timepoint_numeric ox →
     has_column "Marker" ox = true →
     App.body s (Some gene) (Some ox) c
     = mkOutcome c
         (page s gene ox
            "Required columns ['Timepoint','Marker','Value'] missing in oxidative_stress.csv")
         (inr ())
     ∧ Main.body s (Some gene) (Some ox) c
       = mkOutcome c
           (page s gene ox
              "Required columns ['Timepoint','Value'] missing in oxidative_stress.csv")
           (inr ())).
Proof.
  split.
  - intros Hmiss. split.
    + by apply app_body_category_missing.
    + by apply main_body_category_missing.
  - intros Htg Hng Hcg Hto Hno Hco. split.
    + by apply app_body_panels.
    + by apply main_body_panels.
Qed.

Lemma missing_column_outcomes_witness :
  (has_column "Marker" ox_no_marker = false
   ∧ App.body (both_files gene_sample ox_no_marker) (Some gene_sample) (Some ox_no_marker) ∅
     = mkOutcome ∅ [] (inl (Raised (AssertionError "Column 'Marker' not found")))
   ∧ Main.body (both_files gene_sample ox_no_marker) (Some gene_sample) (Some ox_no_marker) ∅
     = mkOutcome ∅ [Error "'Marker' column missing in oxidative_stress.csv"] (inl Stopped))
  ∧ (has_column "Timepoint" gene_sample = true ∧ timepoint_numeric gene_sample
     ∧ has_column "Gene" gene_sample = true
     ∧ has_column "Timepoint" ox_no_value = true ∧ timepoint_numeric ox_no_value
     ∧ has_column "Marker" ox_no_value = true
     ∧ App.body (both_files gene_sample ox_no_value) (Some gene_sample) (Some ox_no_value) ∅
       = mkOutcome ∅
           (page (both_files gene_sample ox_no_value) gene_sample ox_no_value
              "Required columns ['Timepoint','Marker','Value'] missing in oxidative_stress.csv")
           (inr ())
     ∧ Main.body (both_files gene_sample ox_no_value) (Some gene_sample) (Some ox_no_value) ∅
       = mkOutcome ∅
           (page (both_files gene_sample ox_no_value) gene_sample ox_no_value
              "Required columns ['Timepoint','Value'] missing in oxidative_stress.csv")
           (inr ())).
Proof.
  split.
  - split; [reflexivity|].
    destruct (proj1 (missing_column_outcomes (both_files gene_sample ox_no_marker)
                       gene_sample ox_no_marker ∅)) as [Happ Hmain];
      [right; reflexivity|].
    split; [by rewrite Happ | by rewrite Hmain].
  - split; [reflexivity|]. split; [repeat constructor; by intros v [= <-]|].
    split; [reflexivity|]. split; [reflexivity|].
    split; [repeat constructor; by intros v [= <-]|]. split; [reflexivity|].
    apply (proj2 (missing_column_outcomes (both_files gene_sample ox_no_value) gene_sample ox_no_value ∅));
      try reflexivity; repeat constructor; by intros v [= <-].
Defined.

(** The claim as written fails on both scripts: the gene table is
    complete, the oxidative-stress table has no [Marker] column, and the
    gene panel is not drawn. *)
Lemma marker_missing_gene_panel_not_drawn :
  issubset ["Timepoint"; "Twin"; "Gene"; "Expression"] gene_sample = true
  ∧ timepoint_numeric gene_sample
  ∧ has_column "Marker" ox_no_marker = false
  ∧ no_chart (App.run (both_files gene_sample ox_no_marker) ∅)
  ∧ ret (App.run (both_files gene_sample ox_no_marker) ∅)
    = inl (Raised (AssertionError "Column 'Marker' not found"))
  ∧ no_chart (Main.run (both_files gene_sample ox_no_marker) ∅)
  ∧ shown (Main.run (both_files gene_sample ox_no_marker) ∅)
    = [Error "'Marker' column missing in oxidative_stress.csv"]
  ∧ ret (Main.run (both_files gene_sample ox_no_marker) ∅) = inl Stopped.
Proof.
  assert (Happ : shown (App.run (both_files gene_sample ox_no_marker) ∅) = [])
    by (vm_compute; reflexivity).
  assert (Hmain : shown (Main.run (both_files gene_sample ox_no_marker) ∅)
                  = [Error "'Marker' column missing in oxidative_stress.csv"])
    by (vm_compute; reflexivity).
  split; [reflexivity|]. split; [exact gene_sample_numeric|].
  split; [reflexivity|]. split.
  { intros fig. rewrite Happ. apply not_elem_of_nil. }
  split; [vm_compute; reflexivity|]. split.
  { intros fig. rewrite Hmain. by intros [=]%list_elem_of_singleton. }
  split; [exact Hmain | vm_compute; reflexivity].
Qed.

(** A table that only lacks a chart column leaves the other panel alone. *)
Example value_missing_gene_panel_drawn :
  shown (App.run (both_files gene_sample ox_no_value) ∅)
  = [ Heading "Gene Expression: " (VStr "X");
      PlotlyChart (mkFigure (mkDF ["Timepoint"; "Twin"; "Gene"; "Expression"]
                                  [ mkRow 0 [VInt 0; VStr "A"; VStr "X"; VFloat 1] ])
                            "Timepoint" "Expression" (Some "Twin") (VStr "X") 340);
      Heading "Oxidative Stress: " (VStr "MDA");
      Error "Required columns ['Timepoint','Marker','Value'] missing in oxidative_stress.csv";
      Footer ].
Proof. vm_compute. reflexivity. Qed.


(** * Further properties of the scripts *)

(** ** The filter: when it raises, how it composes, when it changes nothing *)

Section filter_more.

Implicit Types (df : DataFrame) (n : Z) (s : list value).

Lemma series_le_text s n :
  ¬ Forall comparable s → series_le s n = Raise TypeError.
Proof.
  unfold series_le. induction s as [|c s IH]; intros Hnot.
  - by destruct Hnot.
  - destruct (decide (comparable c)) as [Hc|Hc].
    + simpl. rewrite (py_le_comparable _ _ Hc). simpl.
      rewrite IH; [done|]. intros Hs. apply Hnot. by constructor.
    + simpl. by rewrite (py_le_raises _ _ Hc).
Qed.

Lemma timepoint_numeric_series df i :
  col_index "Timepoint" (columns df) = Some i →
  timepoint_numeric df ↔ Forall comparable (cell_at i <$> rows df).
Proof.
  intros Hi. split; [by apply timepoint_series|].
  rewrite Forall_fmap. unfold timepoint_numeric. intros Hall.
  eapply Forall_impl; [exact Hall|].
  intros r Hr v. rewrite (cell_index _ _ _ _ Hi). by intros [= <-].
Qed.

#[global] Instance timepoint_numeric_dec df : Decision (timepoint_numeric df).
Proof.
  destruct (col_index "Timepoint" (columns df)) as [i|] eqn:Hi.
  - destruct (decide (Forall comparable (cell_at i <$> rows df))) as [H|H].
    + left. by apply (timepoint_numeric_series _ _ Hi).
    + right. by rewrite (timepoint_numeric_series _ _ Hi).
  - left. apply Forall_forall. intros r _ v. unfold cell. by rewrite Hi.
Defined.

(** [filter_by_days] on a table with text under [Timepoint]. *)
Lemma filter_by_days_text df n :
  has_column "Timepoint" df = true →
  ¬ timepoint_numeric df →
  App.filter_by_days n df = Raise TypeError.
Proof.
  intros Hcol Hnot. unfold App.filter_by_days. rewrite Hcol. simpl.
  destruct (has_column_index _ _ Hcol) as [i Hi].
  unfold getitem. rewrite Hi. simpl.
  rewrite series_le_text; [done|].
  by rewrite <- (timepoint_numeric_series _ _ Hi).
Qed.

Lemma within_min n m v : within (n `min` m) v ↔ within n v ∧ within m v.
Proof.
  destruct v as [z|q| | |]; simpl; try tauto; [lia|].
  destruct (Z.min_spec n m) as [[Hlt ->]|[Hle ->]]; split; try tauto.
  - intros Hq. split; [done|]. eapply Qle_trans; [exact Hq|].
    rewrite <- Zle_Qle. lia.
  - intros Hq. split; [|done]. eapply Qle_trans; [exact Hq|].
    by rewrite <- Zle_Qle.
Qed.

Lemma filter_all (P : Row → Prop) `{∀ r, Decision (P r)} (rs : list Row) :
  Forall P rs → filter P rs = rs.
Proof.
  induction 1 as [|r rs Hr _ IH]; [done|]. by rewrite filter_cons_True, IH.
Qed.

Lemma select_rows_all (P : Row → Prop) `{∀ r, Decision (P r)} df :
  Forall P (rows df) → select_rows P df = df.
Proof.
  intros Hall. unfold select_rows. rewrite filter_all by done. by destruct df.
Qed.

End filter_more.

(** X1.  On a table with a [Timepoint] column both filters raise
    [TypeError] exactly when some row has text under [Timepoint], and
    return a table exactly when none has; the bound plays no part. *)
Theorem filter_raises_iff_text_timepoint (df : DataFrame) (bound : Z) :
  has_column "Timepoint" df = true →
  (App.filter_by_days bound df = Raise TypeError ↔ ¬ timepoint_numeric df)
  ∧ (Main.filter_days bound (Some df) = Raise TypeError ↔ ¬ timepoint_numeric df)
  ∧ ((∃ out, App.filter_by_days bound df = Ok out) ↔ timepoint_numeric df)
  ∧ ((∃ out, Main.filter_days bound (Some df) = Ok (Some out)) ↔ timepoint_numeric df).
Proof.
  intros Hcol. rewrite filter_days_filter_by_days by done.
  destruct (decide (timepoint_numeric df)) as [Hnum|Hnot].
  - rewrite filter_by_days_select by done. simpl.
    repeat split; try done; eauto.
  - rewrite filter_by_days_text by done. simpl.
    repeat split; try done; by intros [? ?].
Qed.

Lemma filter_raises_iff_text_timepoint_witness :
  has_column "Timepoint" text_timepoint = true
  ∧ (App.filter_by_days 340 text_timepoint = Raise TypeError
     ↔ ¬ timepoint_numeric text_timepoint)
  ∧ App.filter_by_days 340 text_timepoint = Raise TypeError.
Proof.
  split; [reflexivity|].
  destruct (filter_raises_iff_text_timepoint text_timepoint 340) as (Happ & _);
    [reflexivity|].
  split; [exact Happ | reflexivity].
Defined.

(** X2.  Filtering by one bound and then by another is filtering once by
    the smaller of the two, for every table: with a numeric [Timepoint]
    column, with text under it (all raise), and without the column. *)
Theorem filter_twice_is_filter_by_min (df : DataFrame) (b b' : Z) :
  (App.filter_by_days b df ≫= App.filter_by_days b') = App.filter_by_days (b `min` b') df
  ∧ (Main.filter_days b (Some df) ≫= Main.filter_days b')
    = Main.filter_days (b `min` b') (Some df).
Proof.
  destruct (has_column "Timepoint" df) eqn:Hcol.
  - rewrite !filter_days_filter_by_days by done.
    destruct (decide (timepoint_numeric df)) as [Hnum|Hnot].
    + rewrite !filter_by_days_select by done.
      cbn [mbind result_bind fmap result_fmap].
      rewrite filter_days_select, filter_by_days_select
        by auto using select_rows_numeric.
      assert (Hmin : select_rows (timepoint_le (select_rows (timepoint_le df b) df) b')
                       (select_rows (timepoint_le df b) df)
                     = select_rows (timepoint_le df (b `min` b')) df).
      { unfold select_rows. simpl. f_equal. rewrite list_filter_filter.
        apply list_filter_iff. intros r. unfold timepoint_le, cell. simpl.
        destruct (_ <$> col_index "Timepoint" (columns df)); [|tauto].
        rewrite within_min. tauto. }
      by rewrite Hmin.
    + by rewrite !filter_by_days_text by done.
  - unfold App.filter_by_days, Main.filter_days. rewrite Hcol. simpl.
    by rewrite Hcol.
Qed.

(** X3.  A bound that every row's [Timepoint] meets changes nothing: both
    filters return the table as it is. *)
Theorem filter_keeps_all_within_bound (df : DataFrame) (bound : Z) :
  has_column "Timepoint" df = true →
  Forall (timepoint_le df bound) (rows df) →
  App.filter_by_days bound df = Ok df
  ∧ Main.filter_days bound (Some df) = Ok (Some df).
Proof.
  intros Hcol Hall.
  assert (Hnum : timepoint_numeric df).
  { eapply Forall_impl; [exact Hall|]. intros r Hr v Hv.
    unfold timepoint_le in Hr. rewrite Hv in Hr. by destruct v. }
  rewrite filter_by_days_select, filter_days_select by done.
  by rewrite select_rows_all.
Qed.

Lemma filter_keeps_all_within_bound_witness :
  has_column "Timepoint" ox_sample = true
  ∧ Forall (timepoint_le ox_sample 340) (rows ox_sample)
  ∧ App.filter_by_days 340 ox_sample = Ok ox_sample
  ∧ Main.filter_days 340 (Some ox_sample) = Ok (Some ox_sample).
Proof.
  split; [reflexivity|].
  split; [cbn [ox_sample rows]; repeat (constructor; [by vm_compute|]); constructor|].
  apply (filter_keeps_all_within_bound ox_sample 340); [reflexivity|].
  cbn [ox_sample rows]. repeat (constructor; [by vm_compute|]); constructor.
Defined.

(** ** The dropdown options and the narrowing *)

Section options.

Implicit Types (s seen : list value) (v c : value) (df : DataFrame).

Lemma py_eq_sym c v : py_eq c v = py_eq v c.
Proof.
  destruct c as [a|p|t| |], v as [b|q|u| |]; simpl; try done.
  - apply Z.eqb_sym.
  - destruct (Qeq_bool p q) eqn:E.
    + symmetry. by apply Qeq_bool_sym.
    + destruct (Qeq_bool q p) eqn:E'; [|done].
      apply Qeq_bool_sym in E'. congruence.
  - apply String.eqb_sym.
Qed.

Lemma same_key_sym c v : same_key c v = same_key v c.
Proof. generalize (py_eq_sym c v). by destruct c, v. Qed.

Lemma py_eq_refl v : v ≠ VNaN → v ≠ VNone → py_eq v v = true.
Proof.
  destruct v as [a|p|t| |]; simpl; try done; intros _ _.
  - apply Z.eqb_refl.
  - apply Qeq_bool_refl.
  - apply String.eqb_refl.
Qed.

Lemma same_key_refl v : same_key v v = true.
Proof.
  destruct v as [a|p|t| |]; simpl; try done.
  - apply Z.eqb_refl.
  - apply Qeq_bool_refl.
  - apply String.eqb_refl.
Qed.

Lemma existsb_same_key c seen :
  existsb (same_key c) seen = true ↔ ∃ x, x ∈ seen ∧ same_key c x = true.
Proof.
  rewrite existsb_exists. split; intros (x & Hx & Hk); exists x.
  - by rewrite list_elem_of_In.
  - by rewrite <- list_elem_of_In.
Qed.

Lemma unique_acc_elem seen s v : v ∈ unique_acc seen s → v ∈ s.
Proof.
  revert seen. induction s as [|c s IH]; intros seen; simpl; [done|].
  destruct (existsb (same_key c) seen).
  - intros ?%IH. by right.
  - intros [->|?%IH]%elem_of_cons; [left | by right].
Qed.

Lemma unique_acc_fresh seen s v x :
  v ∈ unique_acc seen s → x ∈ seen → same_key v x = false.
Proof.
  revert seen. induction s as [|c s IH]; intros seen; simpl; [by intros ?%elem_of_nil|].
  destruct (existsb (same_key c) seen) eqn:E.
  - apply IH.
  - intros [->|Hv]%elem_of_cons Hx.
    + destruct (same_key c x) eqn:Ek; [|done].
      assert (existsb (same_key c) seen = true) by (apply existsb_same_key; eauto).
      congruence.
    + eapply IH; [exact Hv | by right].
Qed.

Lemma unique_acc_covers seen s c :
  c ∈ s → ∃ x, (x ∈ seen ∨ x ∈ unique_acc seen s) ∧ same_key c x = true.
Proof.
  revert seen. induction s as [|d s IH]; intros seen; [by intros ?%elem_of_nil|].
  simpl. intros [->|Hc]%elem_of_cons.
  - destruct (existsb (same_key d) seen) eqn:E.
    + apply existsb_same_key in E as (x & ? & ?). eauto.
    + exists d. split; [right; left | apply same_key_refl].
  - destruct (existsb (same_key d) seen) eqn:E.
    + apply IH, Hc.
    + destruct (IH (d :: seen) Hc) as (w & [[->|?]%elem_of_cons|?] & Hk).
      * exists d. split; [right; left | done].
      * exists w. split; [by left | done].
      * exists w. split; [right; by right | done].
Qed.

Lemma unique_acc_distinct seen s i j x y :
  (i < j)%nat →
  unique_acc seen s !! i = Some x →
  unique_acc seen s !! j = Some y →
  same_key x y = false.
Proof.
  revert seen i j. induction s as [|c s IH]; intros seen i j Hij; simpl; [done|].
  destruct (existsb (same_key c) seen); [by apply IH|].
  destruct i as [|i], j as [|j]; try lia; simpl.
  - intros [= <-] Hy. rewrite same_key_sym.
    eapply unique_acc_fresh; [by eapply list_elem_of_lookup_2 | left].
  - apply IH. lia.
Qed.

End options.

(** X4.  The options a dropdown offers, [df[col].unique()]: every option
    is a value of the column, every value of the column is matched by an
    option, and no two options are equal. *)
Theorem dropdown_options_are_the_distinct_values (s : list value) :
  (∀ v, v ∈ unique s → v ∈ s)
  ∧ (∀ c, c ∈ s → ∃ v, v ∈ unique s ∧ same_key c v = true)
  ∧ (∀ i j x y, i ≠ j → unique s !! i = Some x → unique s !! j = Some y →
               same_key x y = false).
Proof.
  unfold unique. split; [|split].
  - intros v. apply unique_acc_elem.
  - intros c Hc. destruct (unique_acc_covers [] s c Hc) as (x & [H|H] & Hk).
    + by apply elem_of_nil in H.
    + eauto.
  - intros i j x y Hij Hx Hy.
    destruct (decide (i < j)%nat).
    + by eapply unique_acc_distinct.
    + rewrite same_key_sym. eapply (unique_acc_distinct [] s j i); [lia|done..].
Qed.

(** X5.  Narrowing what the narrowing returned, by the same column and
    value, returns it again; without the column both raise the same
    [KeyError]. *)
Theorem narrow_idempotent (df : DataFrame) (col : string) (v : value) :
  (narrow col v df ≫= narrow col v) = narrow col v df.
Proof.
  destruct (has_column col df) eqn:Hcol.
  - rewrite narrow_select by done. cbn [mbind result_bind].
    rewrite narrow_select by done. f_equal.
    unfold select_rows. simpl. f_equal. rewrite list_filter_filter.
    apply list_filter_iff. intros r. unfold category_is, cell. simpl. tauto.
  - unfold narrow, getitem. by rewrite (has_column_false_index _ _ Hcol).
Qed.

(** X6.  An option of the dropdown that is not a missing value has rows
    in the table it was taken from, so narrowing that table by it is not
    empty; narrowing by a missing value ([nan], [None]) leaves no row,
    whatever the table holds. *)
Theorem narrow_by_offered_option (df : DataFrame) (col : string) (v : value) :
  has_column col df = true →
  (v ∈ unique (column_values col df) → v ≠ VNaN → v ≠ VNone →
   ∃ out, narrow col v df = Ok out ∧ rows out ≠ [])
  ∧ (v = VNaN ∨ v = VNone → narrow col v df = Ok (mkDF (columns df) [])).
Proof.
  intros Hcol. rewrite narrow_select by done.
  destruct (has_column_index _ _ Hcol) as [i Hi]. split.
  - intros Hv Hnan Hnone. eexists. split; [done|]. simpl.
    apply unique_acc_elem in Hv.
    unfold column_values, getitem in Hv. rewrite Hi in Hv.
    apply list_elem_of_fmap in Hv as (r & -> & Hr).
    intros Hnil. eapply filter_nil_not_elem_of; [exact Hnil| |exact Hr].
    unfold category_is. rewrite (cell_index _ _ _ _ Hi).
    by apply py_eq_same_value, py_eq_refl.
  - intros Hmiss. unfold select_rows. do 2 f_equal.
    apply elem_of_nil_inv. intros r [Hr _]%list_elem_of_filter.
    unfold category_is in Hr. rewrite (cell_index _ _ _ _ Hi) in Hr.
    apply py_eq_same_value in Hr.
    destruct (py_eq_missing (cell_at i r)) as [Hnan Hnone].
    destruct Hmiss as [->| ->]; congruence.
Qed.

Lemma narrow_by_offered_option_witness :
  has_column "Gene" gene_sample = true
  ∧ VStr "Y" ∈ unique (column_values "Gene" gene_sample)
  ∧ (∃ out, narrow "Gene" (VStr "Y") gene_sample = Ok out ∧ rows out ≠ [])
  ∧ narrow "Gene" VNaN gene_sample = Ok (mkDF (columns gene_sample) []).
Proof.
  assert (Hin : VStr "Y" ∈ unique (column_values "Gene" gene_sample)).
  { vm_compute. right. left. }
  split; [reflexivity|]. split; [exact Hin|].
  destruct (narrow_by_offered_option gene_sample "Gene" (VStr "Y")) as [Hsome _];
    [reflexivity|].
  destruct (narrow_by_offered_option gene_sample "Gene" VNaN) as [_ Hnone];
    [reflexivity|].
  split; [by apply Hsome | apply Hnone; by left].
Defined.

(** ** The loader and its cache *)

Section oblivious_facts.

Context {A B : Type}.

Lemma oblivious_ret (a : A) : oblivious (mret a : script A).
Proof. done. Qed.

Lemma oblivious_emit e : oblivious (emit e).
Proof. done. Qed.

Lemma oblivious_stop : oblivious (st_stop : script A).
Proof. done. Qed.

Lemma oblivious_raise e : oblivious (raise e : script A).
Proof. done. Qed.

Lemma oblivious_lift (r : result A) : oblivious (lift r).
Proof. by destruct r. Qed.

Lemma oblivious_assert cond msg : oblivious (assert cond msg).
Proof. by destruct cond. Qed.

Lemma oblivious_bind (m : script A) (k : A → script B) :
  oblivious m → (∀ a, oblivious (k a)) → oblivious (m ≫= k).
Proof.
  intros Hm Hk c.
  assert (Hs : store (m ∅) = ∅) by (by rewrite (Hm ∅)).
  unfold mbind, script_bind.
  rewrite (Hm c). simpl. destruct (ret (m ∅)) as [h|a] eqn:E; simpl; [done|].
  by rewrite Hs, (Hk a c).
Qed.

End oblivious_facts.

(** Discharges [oblivious] for a script built from the commands above. *)
Ltac oblivious_script :=
  repeat first
    [ apply oblivious_ret | apply oblivious_emit | apply oblivious_stop
    | apply oblivious_raise | apply oblivious_lift | apply oblivious_assert
    | apply oblivious_bind; [|intros ?]
    | match goal with
      | |- oblivious (if ?b then _ else _) => destruct b
      | |- oblivious (match ?o with Some _ => _ | None => _ end) => destruct o
      end ].

Section loader_more.

Implicit Types (s : Session) (c : gmap (string * string) entry).

Lemma load_data_oblivious s path label : oblivious (App.load_data s path label).
Proof. unfold App.load_data. cbv zeta. oblivious_script. Qed.

Lemma load_csv_oblivious s path label : oblivious (Main.load_csv s path label).
Proof. unfold Main.load_csv. cbv zeta. oblivious_script. Qed.

Lemma app_body_oblivious s gene_df ox_df : oblivious (App.body s gene_df ox_df).
Proof.
  unfold App.body. cbv zeta. destruct gene_df, ox_df; oblivious_script.
Qed.

Lemma main_body_oblivious s gene_df ox_df : oblivious (Main.body s gene_df ox_df).
Proof.
  unfold Main.body. cbv zeta. destruct gene_df, ox_df; oblivious_script.
Qed.

(** The decorated call spelled out, for a body that leaves the cache
    alone. *)
Lemma cache_data_oblivious body path label c :
  oblivious (body path label) →
  cache_data body path label c
  = match c !! (path, label) with
    | Some (v, msgs) => mkOutcome c msgs (inr v)
    | None =>
        match ret (body path label ∅) with
        | inr v => mkOutcome (<[(path, label) := (v, shown (body path label ∅))]> c)
                             (shown (body path label ∅)) (inr v)
        | inl h => mkOutcome c (shown (body path label ∅)) (inl h)
        end
    end.
Proof.
  intros Hb. unfold cache_data. destruct (c !! (path, label)) as [[v msgs]|]; [done|].
  rewrite (Hb c). simpl. by destruct (ret (body path label ∅)).
Qed.

Lemma cache_data_lookup body path label c v :
  ret (cache_data body path label c) = inr v →
  store (cache_data body path label c) !! (path, label)
  = Some (v, shown (cache_data body path label c)).
Proof.
  unfold cache_data. destruct (c !! (path, label)) as [[v0 msgs]|] eqn:E; simpl.
  - by intros [= <-].
  - destruct (ret (body path label c)) eqn:Er; simpl.
    + rewrite Er. done.
    + intros [= <-]. by rewrite lookup_insert_eq.
Qed.

End loader_more.

(** X7.  The loader never touches the cache; it shows a message only when
    the uploader is off and the file is missing; and it returns [None]
    in just two cases: uploader on with nothing uploaded (silently), or
    uploader off with the file missing. *)
Theorem loader_absent_and_warning_cases (s : Session) (path label : string)
    (c : gmap (string * string) entry) :
  let absent :=
    (checkbox s = true ∧ file_uploader s ("Upload " ++ label ++ " CSV") = None)
    ∨ (checkbox s = false ∧ files s !! path = None) in
  let warned := checkbox s = false ∧ files s !! path = None in
  (store (App.load_data s path label c) = c
   ∧ (ret (App.load_data s path label c) = inr None ↔ absent)
   ∧ (shown (App.load_data s path label c) ≠ [] ↔ warned))
  ∧ (store (Main.load_csv s path label c) = c
     ∧ (ret (Main.load_csv s path label c) = inr None ↔ absent)
     ∧ (shown (Main.load_csv s path label c) ≠ [] ↔ warned)).
Proof.
  unfold App.load_data, Main.load_csv. cbv zeta.
  destruct (checkbox s);
    [destruct (file_uploader s _) as [[df|e]|] | destruct (files s !! path) as [[df|e]|]];
    simpl; intuition congruence.
Qed.

(** X9.  Once a decorated call has returned a value for a path and
    label, every later call with that path and label returns the same
    value and shows the same messages without changing the cache, in
    whatever state the widgets and the files are by then. *)
Theorem cached_loader_repeats_its_answer (s s' : Session) (path label : string)
    (c : gmap (string * string) entry) (v : option DataFrame) :
  (ret (App.cached_load_data s path label c) = inr v →
   App.cached_load_data s' path label (store (App.cached_load_data s path label c))
   = mkOutcome (store (App.cached_load_data s path label c))
               (shown (App.cached_load_data s path label c)) (inr v))
  ∧ (ret (Main.cached_load_csv s path label c) = inr v →
     Main.cached_load_csv s' path label (store (Main.cached_load_csv s path label c))
     = mkOutcome (store (Main.cached_load_csv s path label c))
                 (shown (Main.cached_load_csv s path label c)) (inr v)).
Proof.
  unfold App.cached_load_data, Main.cached_load_csv.
  split; intros Hret; apply cache_data_hit; by apply cache_data_lookup.
Qed.

Lemma cached_loader_repeats_its_answer_witness :
  ret (App.cached_load_data no_files App.gene_file "Gene Expression" ∅) = inr None
  ∧ App.cached_load_data (both_files gene_sample ox_sample) App.gene_file "Gene Expression"
      (store (App.cached_load_data no_files App.gene_file "Gene Expression" ∅))
    = mkOutcome (store (App.cached_load_data no_files App.gene_file "Gene Expression" ∅))
                (shown (App.cached_load_data no_files App.gene_file "Gene Expression" ∅))
                (inr None).
Proof.
  split; [reflexivity|].
  apply (proj1 (cached_loader_repeats_its_answer no_files (both_files gene_sample ox_sample)
                  App.gene_file "Gene Expression" ∅ None)).
  reflexivity.
Defined.

Section bind_outcomes.

Context {A B : Type}.
Implicit Types (m : script A) (k : A → script B) (c : gmap (string * string) entry).

Lemma bind_returns m k c c1 e1 a :
  m c = mkOutcome c1 e1 (inr a) →
  (m ≫= k) c = mkOutcome (store (k a c1)) (e1 ++ shown (k a c1)) (ret (k a c1)).
Proof. intros Hm. unfold mbind, script_bind. by rewrite Hm. Qed.

Lemma bind_halts m k c c1 e1 h :
  m c = mkOutcome c1 e1 (inl h) →
  (m ≫= k) c = mkOutcome c1 e1 (inl h).
Proof. intros Hm. unfold mbind, script_bind. by rewrite Hm. Qed.

End bind_outcomes.

Section reruns.

Context (b : string → string → script (option DataFrame)).
Hypothesis b_oblivious : ∀ p l, oblivious (b p l).
Implicit Types (c : gmap (string * string) entry).

(** What one decorated call leaves behind. *)
Lemma cache_data_cases p l c :
  (∃ c1 e v, cache_data b p l c = mkOutcome c1 e (inr v)
             ∧ c1 !! (p, l) = Some (v, e)
             ∧ ∀ k, k ≠ (p, l) → c1 !! k = c !! k)
  ∨ (∃ h, cache_data b p l c = mkOutcome c (shown (b p l ∅)) (inl h)
          ∧ c !! (p, l) = None ∧ ret (b p l ∅) = inl h).
Proof.
  rewrite cache_data_oblivious by done.
  destruct (c !! (p, l)) as [[v msgs]|] eqn:E.
  - left. by exists c, msgs, v.
  - destruct (ret (b p l ∅)) as [h|v] eqn:R.
    + right. by exists h.
    + left. eexists _, _, v. split; [done|]. split.
      * by rewrite lookup_insert_eq.
      * intros k Hk. by rewrite lookup_insert_ne.
Qed.

Lemma cache_data_halts_again p l c h :
  c !! (p, l) = None → ret (b p l ∅) = inl h →
  cache_data b p l c = mkOutcome c (shown (b p l ∅)) (inl h).
Proof. intros E R. rewrite cache_data_oblivious by done. by rewrite E, R. Qed.

Lemma two_loads_rerun (B : option DataFrame → option DataFrame → script unit)
    p1 l1 p2 l2 c :
  (∀ g o, oblivious (B g o)) →
  (p1, l1) ≠ (p2, l2) →
  let run : script unit := g ← cache_data b p1 l1; o ← cache_data b p2 l2; B g o in
  run (store (run c)) = run c.
Proof.
  intros HB Hkeys run.
  destruct (cache_data_cases p1 l1 c) as [(c1 & e1 & v1 & HG & Hk1 & Hf1)|(h & HG & E1 & R1)].
  - destruct (cache_data_cases p2 l2 c1) as [(c2 & e2 & v2 & HO & Hk2 & Hf2)|(h & HO & E2 & R2)].
    + assert (Hrun : ∀ c', c' !! (p1, l1) = Some (v1, e1) → c' !! (p2, l2) = Some (v2, e2) →
                run c' = mkOutcome c' (e1 ++ e2 ++ shown (B v1 v2 ∅)) (ret (B v1 v2 ∅))).
      { intros c' H1 H2. unfold run.
        rewrite (bind_returns _ _ _ _ _ _ (cache_data_hit _ _ _ _ _ _ H1)).
        rewrite (bind_returns _ _ _ _ _ _ (cache_data_hit _ _ _ _ _ _ H2)).
        by rewrite (HB v1 v2 c'). }
      assert (Hfirst : run c = mkOutcome c2 (e1 ++ e2 ++ shown (B v1 v2 ∅)) (ret (B v1 v2 ∅))).
      { unfold run. rewrite (bind_returns _ _ _ _ _ _ HG).
        rewrite (bind_returns _ _ _ _ _ _ HO). by rewrite (HB v1 v2 c2). }
      rewrite Hfirst. simpl. apply Hrun; [|done].
      rewrite Hf2; [done|]. by intros [= -> ->].
    + assert (Hfirst : run c = mkOutcome c1 (e1 ++ shown (b p2 l2 ∅)) (inl h)).
      { unfold run. rewrite (bind_returns _ _ _ _ _ _ HG).
        by rewrite (bind_halts _ _ _ _ _ _ HO). }
      rewrite Hfirst. simpl. unfold run.
      rewrite (bind_returns _ _ _ _ _ _ (cache_data_hit _ _ _ _ _ _ Hk1)).
      by rewrite (bind_halts _ _ _ _ _ _ HO).
  - assert (Hfirst : run c = mkOutcome c (shown (b p1 l1 ∅)) (inl h)).
    { unfold run. by rewrite (bind_halts _ _ _ _ _ _ HG). }
    by rewrite Hfirst.
Qed.

End reruns.

(** X10.  Running the script again, with the widgets and the files as
    they were, on the cache the previous run left behind gives the same
    page, the same ending and the same cache, whatever the first run
    started from and however it ended. *)
Theorem rerun_shows_same_page (s : Session) (c : gmap (string * string) entry) :
  App.run s (store (App.run s c)) = App.run s c
  ∧ Main.run s (store (Main.run s c)) = Main.run s c.
Proof.
  split.
  - apply (two_loads_rerun (App.load_data s) (load_data_oblivious s) (App.body s));
      [apply app_body_oblivious | done].
  - apply (two_loads_rerun (Main.load_csv s) (load_csv_oblivious s) (Main.body s));
      [apply main_body_oblivious | done].
Qed.

(** ** Whole runs *)

Section runs.

Implicit Types (s : Session) (c : gmap (string * string) entry)
               (loaded : option DataFrame).

(** A first decorated call with the uploader off: the file's table, or
    [None] with the warning. *)
Lemma cached_load_data_from_file s path label c loaded :
  checkbox s = false →
  files s !! path = Ok <$> loaded →
  c !! (path, label) = None →
  App.cached_load_data s path label c
  = mkOutcome (<[(path, label) := (loaded, missing_warning loaded path)]> c)
              (missing_warning loaded path) (inr loaded).
Proof.
  intros Hoff Hfile Hmiss. unfold App.cached_load_data.
  assert (Hbody : App.load_data s path label c
                  = mkOutcome c (missing_warning loaded path) (inr loaded)).
  { unfold App.load_data. rewrite Hoff, Hfile. by destruct loaded. }
  rewrite (cache_data_miss _ _ _ _ loaded Hmiss); by rewrite Hbody.
Qed.

Lemma cached_load_csv_from_file s path label c loaded :
  checkbox s = false →
  files s !! path = Ok <$> loaded →
  c !! (path, label) = None →
  Main.cached_load_csv s path label c
  = mkOutcome (<[(path, label) := (loaded, missing_warning loaded path)]> c)
              (missing_warning loaded path) (inr loaded).
Proof.
  intros Hoff Hfile Hmiss. unfold Main.cached_load_csv.
  assert (Hbody : Main.load_csv s path label c
                  = mkOutcome c (missing_warning loaded path) (inr loaded)).
  { unfold Main.load_csv. rewrite Hoff, Hfile. by destruct loaded. }
  rewrite (cache_data_miss _ _ _ _ loaded Hmiss); by rewrite Hbody.
Qed.

(** The pre-check: a table that was not loaded stops the script. *)
Lemma app_body_not_loaded s gene_df ox_df c :
  gene_df = None ∨ ox_df = None →
  App.body s gene_df ox_df c
  = mkOutcome c
      [Warning "Please provide both 'gene_expression.csv' and 'oxidative_stress.csv' in 'data/' or via uploader."]
      (inl Stopped).
Proof. intros [-> | ->]; [done | by destruct gene_df]. Qed.

Lemma main_body_not_loaded s gene_df ox_df c :
  gene_df = None ∨ ox_df = None →
  Main.body s gene_df ox_df c
  = mkOutcome c
      [Warning "Please upload or place both 'gene_expression.csv' and 'oxidative_stress.csv' in data/."]
      (inl Stopped).
Proof. intros [-> | ->]; [done | by destruct gene_df]. Qed.

End runs.

(** X11.  A first run with the uploader off, both files in place and
    well-formed tables goes through: it caches the two tables and shows
    the two headings, under each its chart (or the panel's error), and
    the footer. *)
Theorem run_with_both_files (s : Session) (gene ox : DataFrame)
    (c : gmap (string * string) entry) :
  checkbox s = false →
  files s !! "data/gene_expression.csv" = Some (Ok gene) →
  files s !! "data/oxidative_stress.csv" = Some (Ok ox) →
  c !! ("data/gene_expression.csv", "Gene Expression") = None →
  c !! ("data/oxidative_stress.csv", "Oxidative Stress") = None →
  has_column "Timepoint" gene = true → timepoint_numeric gene →
  has_column "Gene" gene = true →
  has_column "Timepoint" ox = true → timepoint_numeric ox →
  has_column "Marker" ox = true →
  let cached :=
    <[("data/oxidative_stress.csv", "Oxidative Stress") := (Some ox, [])]>
      (<[("data/gene_expression.csv", "Gene Expression") := (Some gene, [])]> c) in
  App.run s c
  = mkOutcome cached
      (page s gene ox
         "Required columns ['Timepoint','Marker','Value'] missing in oxidative_stress.csv")
      (inr ())
  ∧ Main.run s c
    = mkOutcome cached
        (page s gene ox
           "Required columns ['Timepoint','Value'] missing in oxidative_stress.csv")
        (inr ()).
Proof.
  intros Hoff Hg Ho Hcg Hco Htg Hng Hgg Hto Hno Hmo cached.
  assert (Hco' : (<[("data/gene_expression.csv", "Gene Expression") := (Some gene, [])]> c)
                   !! ("data/oxidative_stress.csv", "Oxidative Stress") = None)
    by (by rewrite lookup_insert_ne).
  split.
  - unfold App.run.
    rewrite (bind_returns _ _ _ _ _ _
               (cached_load_data_from_file s _ _ c (Some gene) Hoff Hg Hcg)).
    rewrite (bind_returns _ _ _ _ _ _
               (cached_load_data_from_file s _ _ _ (Some ox) Hoff Ho Hco')).
    by rewrite app_body_panels.
  - unfold Main.run.
    rewrite (bind_returns _ _ _ _ _ _
               (cached_load_csv_from_file s _ _ c (Some gene) Hoff Hg Hcg)).
    rewrite (bind_returns _ _ _ _ _ _
               (cached_load_csv_from_file s _ _ _ (Some ox) Hoff Ho Hco')).
    by rewrite main_body_panels.
Qed.

Lemma run_with_both_files_witness :
  App.run (both_files gene_sample ox_sample) ∅
  = mkOutcome
      (<[("data/oxidative_stress.csv", "Oxidative Stress") := (Some ox_sample, [])]>
         (<[("data/gene_expression.csv", "Gene Expression") := (Some gene_sample, [])]> ∅))
      (page (both_files gene_sample ox_sample) gene_sample ox_sample
         "Required columns ['Timepoint','Marker','Value'] missing in oxidative_stress.csv")
      (inr ()).
Proof.
  destruct (run_with_both_files (both_files gene_sample ox_sample)
              gene_sample ox_sample ∅) as [Happ _];
    [reflexivity | reflexivity | reflexivity | reflexivity | reflexivity
    | reflexivity | exact gene_sample_numeric | reflexivity
    | reflexivity | repeat constructor; by intros v [= <-] | reflexivity | exact Happ].
Defined.

(** X12.  A first run with the uploader off and a file missing stops at
    the pre-check: the sidebar names each missing file, the page asks for
    both files, nothing else is shown, and what was (not) loaded is
    cached all the same. *)
Theorem run_with_missing_file (s : Session) (gene_df ox_df : option DataFrame)
    (c : gmap (string * string) entry) :
  checkbox s = false →
  files s !! "data/gene_expression.csv" = Ok <$> gene_df →
  files s !! "data/oxidative_stress.csv" = Ok <$> ox_df →
  c !! ("data/gene_expression.csv", "Gene Expression") = None →
  c !! ("data/oxidative_stress.csv", "Oxidative Stress") = None →
  gene_df = None ∨ ox_df = None →
  let warnings :=
    (missing_warning gene_df "data/gene_expression.csv"
     ++ missing_warning ox_df "data/oxidative_stress.csv")%list in
  let cached :=
    <[("data/oxidative_stress.csv", "Oxidative Stress")
        := (ox_df, missing_warning ox_df "data/oxidative_stress.csv")]>
      (<[("data/gene_expression.csv", "Gene Expression")
           := (gene_df, missing_warning gene_df "data/gene_expression.csv")]> c) in
  App.run s c
  = mkOutcome cached
      (warnings ++
       [Warning "Please provide both 'gene_expression.csv' and 'oxidative_stress.csv' in 'data/' or via uploader."])
      (inl Stopped)
  ∧ Main.run s c
    = mkOutcome cached
        (warnings ++
         [Warning "Please upload or place both 'gene_expression.csv' and 'oxidative_stress.csv' in data/."])
        (inl Stopped).
Proof.
  intros Hoff Hg Ho Hcg Hco Hnone warnings cached.
  assert (Hco' : (<[("data/gene_expression.csv", "Gene Expression")
                      := (gene_df, missing_warning gene_df "data/gene_expression.csv")]> c)
                   !! ("data/oxidative_stress.csv", "Oxidative Stress") = None)
    by (by rewrite lookup_insert_ne).
  split.
  - unfold App.run.
    rewrite (bind_returns _ _ _ _ _ _
               (cached_load_data_from_file s _ _ c gene_df Hoff Hg Hcg)).
    rewrite (bind_returns _ _ _ _ _ _
               (cached_load_data_from_file s _ _ _ ox_df Hoff Ho Hco')).
    rewrite app_body_not_loaded by done. simpl. by rewrite app_assoc.
  - unfold Main.run.
    rewrite (bind_returns _ _ _ _ _ _
               (cached_load_csv_from_file s _ _ c gene_df Hoff Hg Hcg)).
    rewrite (bind_returns _ _ _ _ _ _
               (cached_load_csv_from_file s _ _ _ ox_df Hoff Ho Hco')).
    rewrite main_body_not_loaded by done. simpl. by rewrite app_assoc.
Qed.

Lemma run_with_missing_file_witness :
  shown (App.run (mkSession 340 false (λ _, None)
                    (<["data/gene_expression.csv" := Ok gene_sample]> ∅) first_option) ∅)
  = [ SidebarWarning "File not found: data/oxidative_stress.csv";
      Warning "Please provide both 'gene_expression.csv' and 'oxidative_stress.csv' in 'data/' or via uploader." ].
Proof.
  destruct (run_with_missing_file
              (mkSession 340 false (λ _, None)
                 (<["data/gene_expression.csv" := Ok gene_sample]> ∅) first_option)
              (Some gene_sample) None ∅) as [Happ _];
    [reflexivity | reflexivity | reflexivity | reflexivity | reflexivity
    | by right |].
  by rewrite Happ.
Defined.

(** ** What a chart can show *)

Section charts.

Implicit Types (s : Session) (c : gmap (string * string) entry)
               (df f out : DataFrame) (e : event).

Lemma shown_bind_elem {A B} (m : script A) (k : A → script B) c e :
  e ∈ shown ((m ≫= k) c) →
  e ∈ shown (m c) ∨ ∃ a, ret (m c) = inr a ∧ e ∈ shown (k a (store (m c))).
Proof.
  unfold mbind, script_bind. simpl. destruct (ret (m c)) as [h|a]; simpl.
  - by left.
  - intros [?|?]%elem_of_app; [by left | right; eauto].
Qed.

Lemma lift_shown {A} (r : result A) c : shown (lift r c) = [].
Proof. by destruct r. Qed.

Lemma lift_returns {A} (r : result A) c a : ret (lift r c) = inr a → r = Ok a.
Proof. destruct r; simpl; congruence. Qed.

Lemma assert_shown cond msg c : shown (assert cond msg c) = [].
Proof. by destruct cond. Qed.

Lemma narrow_returns col v f out :
  narrow col v f = Ok out →
  has_column col f = true ∧ out = select_rows (category_is f col v) f.
Proof.
  destruct (has_column col f) eqn:Hcol.
  - rewrite narrow_select by done. by intros [= <-].
  - unfold narrow, getitem. by rewrite (has_column_false_index _ _ Hcol).
Qed.

Lemma filter_by_days_returns df n f :
  App.filter_by_days n df = Ok f →
  has_column "Timepoint" df = true →
  f = select_rows (timepoint_le df n) df.
Proof.
  intros Hf Hcol. destruct (decide (timepoint_numeric df)) as [Hnum|Hnot].
  - rewrite filter_by_days_select in Hf by done. congruence.
  - rewrite filter_by_days_text in Hf by done. done.
Qed.

(** The table a panel hands to its chart. *)
Lemma plotted_table df n col v f out :
  App.filter_by_days n df = Ok f →
  narrow col v f = Ok out →
  has_column "Timepoint" out = true →
  Forall (timepoint_le out n) (rows out)
  ∧ Forall (category_is out col v) (rows out)
  ∧ columns out = columns df
  ∧ rows out `sublist_of` rows df.
Proof.
  intros Hf [Hcol ->]%narrow_returns Htp.
  destruct (has_column "Timepoint" df) eqn:Hdf.
  - apply filter_by_days_returns in Hf as ->; [|done].
    split; [|split; [|split]].
    + apply Forall_forall. intros r [_ [Hr _]%list_elem_of_filter]%list_elem_of_filter.
      exact Hr.
    + apply Forall_forall. intros r [Hr _]%list_elem_of_filter. exact Hr.
    + done.
    + simpl. etrans; apply sublist_filter.
  - unfold App.filter_by_days in Hf. rewrite Hdf in Hf. simpl in Hf.
    injection Hf as <-. rewrite select_rows_has_column in Htp. congruence.
Qed.

Lemma plotted_table_main df n col v fo out :
  Main.filter_days n (Some df) = Ok fo →
  Main.narrow_filtered col v fo = Ok out →
  has_column "Timepoint" out = true →
  Forall (timepoint_le out n) (rows out)
  ∧ Forall (category_is out col v) (rows out)
  ∧ columns out = columns df
  ∧ rows out `sublist_of` rows df.
Proof.
  intros Hf Hn Htp. destruct fo as [f|]; [|done]. simpl in Hn.
  destruct (has_column "Timepoint" df) eqn:Hdf.
  - rewrite filter_days_filter_by_days in Hf by done.
    destruct (App.filter_by_days n df) as [f'|] eqn:Hf'; [|done].
    injection Hf as <-. by eapply plotted_table.
  - unfold Main.filter_days in Hf. by rewrite Hdf in Hf.
Qed.

End charts.

Lemma app_chart s gene ox c fig :
  PlotlyChart fig ∈ shown (App.body s (Some gene) (Some ox) c) →
  ∃ col df f,
    (col = "Gene" ∧ y fig = "Expression" ∧ df = gene
     ∨ col = "Marker" ∧ y fig = "Value" ∧ df = ox)
    ∧ App.filter_by_days (slider s) df = Ok f
    ∧ narrow col (subject fig) f = Ok (data fig)
    ∧ x fig = "Timepoint" ∧ days fig = slider s
    ∧ issubset [x fig; y fig] (data fig) = true.
Proof.
  unfold App.body. cbv zeta. intros H.
  apply shown_bind_elem in H as [H|(gene_f & Hgf%lift_returns & H)];
    [by rewrite lift_shown in H; apply elem_of_nil in H|].
  apply shown_bind_elem in H as [H|(ox_f & Hof%lift_returns & H)];
    [by rewrite lift_shown in H; apply elem_of_nil in H|].
  apply shown_bind_elem in H as [H|(? & _ & H)];
    [by rewrite assert_shown in H; apply elem_of_nil in H|].
  apply shown_bind_elem in H as [H|(genes & _ & H)];
    [by rewrite lift_shown in H; apply elem_of_nil in H|].
  apply shown_bind_elem in H as [H|(? & _ & H)];
    [by rewrite assert_shown in H; apply elem_of_nil in H|].
  apply shown_bind_elem in H as [H|(markers & _ & H)];
    [by rewrite lift_shown in H; apply elem_of_nil in H|].
  apply shown_bind_elem in H as [H|(? & _ & H)];
    [by apply list_elem_of_singleton in H|].
  apply shown_bind_elem in H as [H|(df_gene & Hdg%lift_returns & H)];
    [by rewrite lift_shown in H; apply elem_of_nil in H|].
  apply shown_bind_elem in H as [H|(? & _ & H)].
  { destruct (issubset _ df_gene) eqn:Hsub;
      apply list_elem_of_singleton in H; [|done].
    injection H as ->. exists "Gene", gene, gene_f. simpl.
    repeat split; try done; [by left|].
    simpl in Hsub. simpl. by destruct (has_column "Timepoint" df_gene),
      (has_column "Twin" df_gene), (has_column "Expression" df_gene). }
  apply shown_bind_elem in H as [H|(? & _ & H)];
    [by apply list_elem_of_singleton in H|].
  apply shown_bind_elem in H as [H|(df_ox & Hdo%lift_returns & H)];
    [by rewrite lift_shown in H; apply elem_of_nil in H|].
  apply shown_bind_elem in H as [H|(? & _ & H)];
    [|by apply list_elem_of_singleton in H].
  destruct (issubset _ df_ox) eqn:Hsub;
    apply list_elem_of_singleton in H; [|done].
  injection H as ->. exists "Marker", ox, ox_f. simpl.
  repeat split; try done. by right.
Qed.

Lemma main_chart s gene ox c fig :
  PlotlyChart fig ∈ shown (Main.body s (Some gene) (Some ox) c) →
  ∃ col df fo,
    (col = "Gene" ∧ y fig = "Expression" ∧ df = gene
     ∨ col = "Marker" ∧ y fig = "Value" ∧ df = ox)
    ∧ Main.filter_days (slider s) (Some df) = Ok fo
    ∧ Main.narrow_filtered col (subject fig) fo = Ok (data fig)
    ∧ x fig = "Timepoint" ∧ days fig = slider s
    ∧ issubset [x fig; y fig] (data fig) = true.
Proof.
  unfold Main.body. cbv zeta. intros H.
  apply shown_bind_elem in H as [H|(selected_gene & _ & H)].
  { destruct (has_column "Gene" gene).
    - apply shown_bind_elem in H as [H|(? & _ & H)];
        [by rewrite lift_shown in H; apply elem_of_nil in H | by apply elem_of_nil in H].
    - apply shown_bind_elem in H as [H|(? & _ & H)];
        [by apply list_elem_of_singleton in H | by apply elem_of_nil in H]. }
  apply shown_bind_elem in H as [H|(selected_marker & _ & H)].
  { destruct (has_column "Marker" ox).
    - apply shown_bind_elem in H as [H|(? & _ & H)];
        [by rewrite lift_shown in H; apply elem_of_nil in H | by apply elem_of_nil in H].
    - apply shown_bind_elem in H as [H|(? & _ & H)];
        [by apply list_elem_of_singleton in H | by apply elem_of_nil in H]. }
  apply shown_bind_elem in H as [H|(gene_f & Hgf%lift_returns & H)];
    [by rewrite lift_shown in H; apply elem_of_nil in H|].
  apply shown_bind_elem in H as [H|(go_f & Hof%lift_returns & H)];
    [by rewrite lift_shown in H; apply elem_of_nil in H|].
  apply shown_bind_elem in H as [H|(? & _ & H)];
    [by apply list_elem_of_singleton in H|].
  apply shown_bind_elem in H as [H|(df_g & Hdg%lift_returns & H)];
    [by rewrite lift_shown in H; apply elem_of_nil in H|].
  apply shown_bind_elem in H as [H|(? & _ & H)].
  { destruct (issubset _ df_g) eqn:Hsub;
      apply list_elem_of_singleton in H; [|done].
    injection H as ->. exists "Gene", gene, gene_f. simpl.
    repeat split; try done; [by left|].
    simpl in Hsub. simpl. by destruct (has_column "Timepoint" df_g),
      (has_column "Twin" df_g), (has_column "Expression" df_g). }
  apply shown_bind_elem in H as [H|(? & _ & H)];
    [by apply list_elem_of_singleton in H|].
  apply shown_bind_elem in H as [H|(df_o & Hdo%lift_returns & H)];
    [by rewrite lift_shown in H; apply elem_of_nil in H|].
  apply shown_bind_elem in H as [H|(? & _ & H)];
    [|by apply list_elem_of_singleton in H].
  destruct (issubset _ df_o) eqn:Hsub;
    apply list_elem_of_singleton in H; [|done].
  injection H as ->. exists "Marker", ox, go_f. simpl.
  repeat split; try done. by right.
Qed.

Lemma issubset_pair a b df :
  issubset [a; b] df = true → has_column a df = true ∧ has_column b df = true.
Proof. simpl. by destruct (has_column a df), (has_column b df). Qed.

(** X15.  Whatever the tables and the widgets, a chart that either
    script draws plots rows of the loaded table, in their order, all with
    [Timepoint] at most the slider value and with the chosen gene (or
    marker); the plotted table has the loaded table's columns, the two
    chart axes among them. *)
Theorem charts_plot_selected_rows_within_slider (s : Session)
    (gene_df ox_df : option DataFrame) (c : gmap (string * string) entry)
    (fig : Figure) :
  PlotlyChart fig ∈ shown (App.body s gene_df ox_df c)
  ∨ PlotlyChart fig ∈ shown (Main.body s gene_df ox_df c) →
  x fig = "Timepoint" ∧ days fig = slider s
  ∧ has_column (x fig) (data fig) = true ∧ has_column (y fig) (data fig) = true
  ∧ Forall (timepoint_le (data fig) (slider s)) (rows (data fig))
  ∧ ∃ col df,
      (col = "Gene" ∧ y fig = "Expression" ∧ gene_df = Some df
       ∨ col = "Marker" ∧ y fig = "Value" ∧ ox_df = Some df)
      ∧ Forall (category_is (data fig) col (subject fig)) (rows (data fig))
      ∧ columns (data fig) = columns df
      ∧ rows (data fig) `sublist_of` rows df.
Proof.
  intros Hshown.
  destruct gene_df as [gene|], ox_df as [ox|];
    try (destruct Hshown as [H|H]; by apply list_elem_of_singleton in H).
  assert (∃ col df, (col = "Gene" ∧ y fig = "Expression" ∧ df = gene
                     ∨ col = "Marker" ∧ y fig = "Value" ∧ df = ox)
            ∧ x fig = "Timepoint" ∧ days fig = slider s
            ∧ issubset [x fig; y fig] (data fig) = true
            ∧ (has_column "Timepoint" (data fig) = true →
               Forall (timepoint_le (data fig) (slider s)) (rows (data fig))
               ∧ Forall (category_is (data fig) col (subject fig)) (rows (data fig))
               ∧ columns (data fig) = columns df
               ∧ rows (data fig) `sublist_of` rows df))
    as (col & df & Hwhich & Hx & Hdays & Hsub & Hrows).
  { destruct Hshown as [H|H].
    - apply app_chart in H as (col & df & f & Hwhich & Hf & Hn & Hx & Hdays & Hsub).
      exists col, df. repeat split; try done; by eapply plotted_table.
    - apply main_chart in H as (col & df & fo & Hwhich & Hf & Hn & Hx & Hdays & Hsub).
      exists col, df. repeat split; try done; by eapply plotted_table_main. }
  destruct (issubset_pair _ _ _ Hsub) as [Hxcol Hycol].
  destruct Hrows as (Htp & Hcat & Hcols & Hsl); [by rewrite <- Hx|].
  repeat split; try done.
  exists col, df. repeat split; try done.
  destruct Hwhich as [(-> & ? & ->)|(-> & ? & ->)]; [by left | by right].
Qed.

Lemma charts_plot_selected_rows_within_slider_witness :
  let fig := mkFigure (mkDF ["Timepoint"; "Twin"; "Gene"; "Expression"]
                            [ mkRow 0 [VInt 0; VStr "A"; VStr "X"; VFloat 1] ])
                      "Timepoint" "Expression" (Some "Twin") (VStr "X") 340 in
  PlotlyChart fig
    ∈ shown (App.body (both_files gene_sample ox_sample)
               (Some gene_sample) (Some ox_sample) ∅)
  ∧ Forall (timepoint_le (data fig) 340) (rows (data fig))
  ∧ rows (data fig) `sublist_of` rows gene_sample.
Proof.
  intros fig.
  assert (Hin : PlotlyChart fig
                  ∈ shown (App.body (both_files gene_sample ox_sample)
                             (Some gene_sample) (Some ox_sample) ∅)).
  { vm_compute. right. left. }
  split; [exact Hin|].
  destruct (charts_plot_selected_rows_within_slider
              (both_files gene_sample ox_sample) (Some gene_sample) (Some ox_sample)
              ∅ fig (or_introl Hin))
    as (_ & _ & _ & _ & Htp & col & df & Hwhich & _ & _ & Hsub).
  split; [exact Htp|].
  destruct Hwhich as [(_ & _ & [= <-])|(_ & Hy & _)]; [exact Hsub | discriminate Hy].
Defined.

(** ** A table without [Timepoint], and which error comes first *)

Section no_timepoint_column.

Implicit Types (s : Session) (c : gmap (string * string) entry) (df : DataFrame).

Lemma filter_by_days_no_timepoint n df :
  has_column "Timepoint" df = false → App.filter_by_days n df = Ok df.
Proof. intros Hcol. unfold App.filter_by_days. by rewrite Hcol. Qed.

Lemma filter_days_no_timepoint n df :
  has_column "Timepoint" df = false → Main.filter_days n (Some df) = Ok None.
Proof. intros Hcol. unfold Main.filter_days. by rewrite Hcol. Qed.

Lemma issubset_no_timepoint (P : Row → Prop) `{∀ r, Decision (P r)} required df :
  has_column "Timepoint" df = false →
  issubset ("Timepoint" :: required) (select_rows P df) = false.
Proof.
  intros Hcol. unfold issubset. simpl. rewrite select_rows_has_column.
  by rewrite Hcol.
Qed.

End no_timepoint_column.

(** X13.  A gene table without a [Timepoint] column (the other table
    being well-formed): [app.py] filters nothing, reports the missing
    columns in the gene panel and goes on to the other panel; [main.py]
    shows the gene heading and then ends in a [TypeError], with no error
    message and no chart. *)
Theorem gene_table_without_timepoint (s : Session) (gene ox : DataFrame)
    (c : gmap (string * string) entry) :
  has_column "Timepoint" gene = false →
  has_column "Gene" gene = true →
  has_column "Timepoint" ox = true → timepoint_numeric ox →
  has_column "Marker" ox = true →
  let g := selectbox s "Select Gene" (unique (column_values "Gene" gene)) in
  let m := selectbox s "Select Oxidative Marker" (unique (column_values "Marker" ox)) in
  App.body s (Some gene) (Some ox) c
  = mkOutcome c
      [ Heading "Gene Expression: " g;
        Error "Required columns ['Timepoint','Twin','Expression'] missing in gene_expression.csv";
        Heading "Oxidative Stress: " m;
        if issubset ["Timepoint"; "Value"] ox
        then PlotlyChart (mkFigure (kept ox (slider s) "Marker" m)
                                   "Timepoint" "Value" None m (slider s))
        else Error "Required columns ['Timepoint','Marker','Value'] missing in oxidative_stress.csv";
        Footer ]
      (inr ())
  ∧ Main.body s (Some gene) (Some ox) c
    = mkOutcome c [Heading "Gene Expression: " g] (inl (Raised TypeError)).
Proof.
  intros Htg Hcg Hto Hno Hco g m. split.
  - unfold App.body.
    rewrite (filter_by_days_no_timepoint _ gene) by done. script_step.
    rewrite filter_by_days_select by done. script_step.
    rewrite Hcg, Hco. unfold assert. script_step.
    rewrite (getitem_column_values "Gene") by done. do 2 script_step.
    rewrite (getitem_column_values "Marker") by done. script_step.
    fold g m. apply bind_emit.
    rewrite (narrow_select "Gene") by done. script_step.
    rewrite issubset_no_timepoint by done. do 2 apply bind_emit.
    rewrite (narrow_filtered_kept ox) by done. script_step. rewrite issubset_kept.
    destruct (issubset _ ox); by apply bind_emit.
  - unfold Main.body. rewrite Hcg, Hco.
    rewrite (bind_pure _ g);
      [|by rewrite (getitem_column_values "Gene")].
    rewrite (bind_pure _ m);
      [|by rewrite (getitem_column_values "Marker")].
    rewrite (filter_days_no_timepoint _ gene) by done. script_step.
    rewrite filter_days_select by done. script_step.
    by apply bind_emit.
Qed.

Lemma gene_table_without_timepoint_witness :
  has_column "Timepoint" no_timepoint = false
  ∧ has_column "Gene" no_timepoint = true
  ∧ ret (App.body (both_files no_timepoint ox_sample) (Some no_timepoint) (Some ox_sample) ∅)
    = inr ()
  ∧ Main.body (both_files no_timepoint ox_sample) (Some no_timepoint) (Some ox_sample) ∅
    = mkOutcome ∅ [Heading "Gene Expression: " (VStr "X")] (inl (Raised TypeError)).
Proof.
  split; [reflexivity|]. split; [reflexivity|].
  destruct (gene_table_without_timepoint (both_files no_timepoint ox_sample)
              no_timepoint ox_sample ∅) as [Happ Hmain];
    [reflexivity | reflexivity | reflexivity
    | repeat constructor; by intros v [= <-] | reflexivity |].
  split; [by rewrite Happ | exact Hmain].
Defined.

(** X14.  Which error ends a run whose tables lack a category column.
    [main.py] checks [Gene] first, so it names [Gene] whenever that column
    is missing and [Marker] only when [Gene] is there.  [app.py] filters
    before it checks: text under [Timepoint] in either table ends the run
    in a [TypeError], and only otherwise does the failed assertion name
    [Gene], or [Marker] when [Gene] is there. *)
Theorem first_error_without_category_column (s : Session) (gene ox : DataFrame)
    (c : gmap (string * string) entry) :
  (has_column "Gene" gene = false →
   Main.body s (Some gene) (Some ox) c
   = mkOutcome c [Error "'Gene' column missing in gene_expression.csv"] (inl Stopped))
  ∧ (has_column "Gene" gene = true → has_column "Marker" ox = false →
     Main.body s (Some gene) (Some ox) c
     = mkOutcome c [Error "'Marker' column missing in oxidative_stress.csv"] (inl Stopped))
  ∧ (has_column "Gene" gene = false ∨ has_column "Marker" ox = false →
     App.body s (Some gene) (Some ox) c
     = mkOutcome c []
         (inl (Raised
            match App.filter_by_days (slider s) gene,
                  App.filter_by_days (slider s) ox with
            | Raise e, _ => e
            | Ok _, Raise e => e
            | Ok _, Ok _ =>
                if has_column "Gene" gene
                then AssertionError "Column 'Marker' not found"
                else AssertionError "Column 'Gene' not found"
            end))).
Proof.
  split; [|split].
  - intros Hcg. unfold Main.body. by rewrite Hcg.
  - intros Hcg Hco. unfold Main.body. rewrite Hcg.
    rewrite (bind_pure _ (selectbox s "Select Gene" (unique (column_values "Gene" gene))));
      [|by rewrite (getitem_column_values "Gene")].
    by rewrite Hco.
  - intros Hmiss. unfold App.body.
    destruct (App.filter_by_days (slider s) gene) as [gene_f|e]; [|done].
    script_step.
    destruct (App.filter_by_days (slider s) ox) as [ox_f|e]; [|done].
    script_step. unfold assert.
    destruct (has_column "Gene" gene) eqn:Hcg; [|done].
    script_step. rewrite (getitem_column_values "Gene") by done. script_step.
    destruct Hmiss as [?|Hco]; [done|]. by rewrite Hco.
Qed.

Lemma first_error_without_category_column_witness :
  has_column "Gene" ox_sample = false
  ∧ Main.body no_files (Some ox_sample) (Some ox_no_marker) ∅
    = mkOutcome ∅ [Error "'Gene' column missing in gene_expression.csv"] (inl Stopped)
  ∧ App.body no_files (Some ox_sample) (Some ox_no_marker) ∅
    = mkOutcome ∅ [] (inl (Raised (AssertionError "Column 'Gene' not found"))).
Proof.
  split; [reflexivity|].
  destruct (first_error_without_category_column no_files ox_sample ox_no_marker ∅)
    as (Hgene & _ & Happ).
  split; [by apply Hgene|].
  rewrite Happ; [reflexivity | by left].
Defined.
